(** * Mood art generator: the art routes, the Art schema and the auth middleware

  A shallow embedding of [routes/artRoutes.js], [models/Art.js] and
  [middleware/auth.js], followed by [models/User.js], [routes/authRoutes.js]
  and the start-up code of [backend/server.js].

  Conventions of the embedding.
  - A JavaScript string is a sequence of code units; the model takes the
    code units below 256 (the Latin-1 range), as Rocq's [string].  On such
    strings [toLowerCase] and [trim] are exactly the functions defined
    here.
  - [async] functions are modelled by their result ([Return] or [Throw])
    together with the list of external effects they performed, in order.
    Console output is not part of that list.
  - The Art collection is a finite map from document ids to documents; the
    route handlers pass it explicitly.
  - Everything outside the repository (the image provider, the hosting
    provider, token verification, the user lookup, id generation, the
    clock, and how the document layer casts a foreign object to a string
    or a route parameter to a document id) is a field of the record
    [World].  The collection itself always answers.
  - A field of a JSON request body is absent ([None]) or has the type the
    route expects: a string for moods, prompt, style and email, an array
    of strings for colors.
  - A request is one step: the routes are not interleaved. *)

From Stdlib Require Import Ascii String QArith.
From stdpp Require Import gmap strings list fin_maps sorting.

Local Open Scope string_scope.

Set Warnings "-register-all".

(** ** JavaScript strings *)

Module JsString.

(** WhiteSpace and LineTerminator code units below 256: TAB, LF, VT, FF,
    CR, SP and NBSP. *)
Definition is_whitespace (c : ascii) : bool :=
  let n := nat_of_ascii c in
  ((9 <=? n)%nat && (n <=? 13)%nat) || (n =? 32)%nat || (n =? 160)%nat.

(** The capital letters below 256: A-Z, and U+00C0..U+00DE except the
    multiplication sign U+00D7. *)
Definition is_capital (c : ascii) : bool :=
  let n := nat_of_ascii c in
  ((65 <=? n)%nat && (n <=? 90)%nat)
  || ((192 <=? n)%nat && (n <=? 222)%nat && negb (n =? 215)%nat).

(** [String.prototype.toLowerCase] on one code unit below 256. *)
Definition lower_char (c : ascii) : ascii :=
  if is_capital c then ascii_of_nat (nat_of_ascii c + 32) else c.

Fixpoint toLowerCase (s : string) : string :=
  match s with
  | EmptyString => EmptyString
  | String c r => String (lower_char c) (toLowerCase r)
  end.

Fixpoint trimStart (s : string) : string :=
  match s with
  | EmptyString => EmptyString
  | String c r => if is_whitespace c then trimStart r else s
  end.

Fixpoint trimEnd (s : string) : string :=
  match s with
  | EmptyString => EmptyString
  | String c r =>
      match trimEnd r with
      | EmptyString => if is_whitespace c then EmptyString else String c EmptyString
      | r' => String c r'
      end
  end.

(** [String.prototype.trim] *)
Definition trim (s : string) : string := trimEnd (trimStart s).

(** [s.split(sep)] for a one-character separator; the result is never
    empty. *)
Fixpoint split (sep : ascii) (s : string) : list string :=
  match s with
  | EmptyString => [EmptyString]
  | String c r =>
      if Ascii.eqb c sep then EmptyString :: split sep r
      else match split sep r with
           | h :: t => String c h :: t
           | [] => [String c EmptyString]
           end
  end.

(** [arr[0]] on an array of strings that is known to be non-empty. *)
Definition first (l : list string) : string := List.hd EmptyString l.

(** [arr.join(sep)] on an array of strings. *)
Definition join (sep : string) (l : list string) : string := String.concat sep l.

(** Does some code unit of [s] satisfy [P]? *)
Fixpoint some_char (P : ascii -> bool) (s : string) : bool :=
  match s with
  | EmptyString => false
  | String d r => P d || some_char P r
  end.

Definition is_ampersand (c : ascii) : bool := Ascii.eqb c "&".

End JsString.

(** ** JavaScript values *)

Module Js.

(** The values the routes can meet.  [VObject props] is a plain object
    literal with own properties [props] and prototype [Object.prototype];
    [VNative n] is the built-in function or object that
    [Object.prototype] holds under the name [n]. *)
Inductive value : Type :=
| VUndefined
| VNull
| VBool (b : bool)
| VNaN
| VNumber (q : Q)
| VString (s : string)
| VObject (props : list (string * value))
| VNative (name : string).

(** ToBoolean *)
Definition truthy (v : value) : bool :=
  match v with
  | VUndefined | VNull | VNaN => false
  | VBool b => b
  | VNumber q => negb (Qeq_bool q 0)
  | VString s => negb (String.eqb s "")
  | VObject _ | VNative _ => true
  end.

Definition typeof (v : value) : string :=
  match v with
  | VUndefined => "undefined"
  | VNull => "object"
  | VBool _ => "boolean"
  | VNaN | VNumber _ => "number"
  | VString _ => "string"
  | VObject _ => "object"
  | VNative n => if String.eqb n "__proto__" then "object" else "function"
  end.

(** The characters of a string value; only ever evaluated behind a
    [typeof v === 'string'] test. *)
Definition chars (v : value) : string :=
  match v with VString s => s | _ => "" end.

(** The property names of [Object.prototype]. *)
Definition Object_prototype_names : list string :=
  [ "constructor"; "__defineGetter__"; "__defineSetter__"; "hasOwnProperty";
    "__lookupGetter__"; "__lookupSetter__"; "isPrototypeOf";
    "propertyIsEnumerable"; "toString"; "valueOf"; "__proto__";
    "toLocaleString" ].

Fixpoint own_property (props : list (string * value)) (k : string) : option value :=
  match props with
  | [] => None
  | (k', v) :: rest => if String.eqb k' k then Some v else own_property rest k
  end.

(** [obj[k]] on a plain object: the own property if there is one,
    otherwise what the prototype chain gives. *)
Definition get (obj : list (string * value)) (k : string) : value :=
  match own_property obj k with
  | Some v => v
  | None => if bool_decide (k ∈ Object_prototype_names) then VNative k else VUndefined
  end.

(** [a || b] *)
Definition or_else (a b : value) : value := if truthy a then a else b.

(** Truthiness of an optional string field ([undefined] or a string). *)
Definition present (o : option string) : bool :=
  match o with
  | Some s => negb (String.eqb s "")
  | None => false
  end.

Definition of_field (o : option string) : value :=
  match o with
  | Some s => VString s
  | None => VUndefined
  end.

(** [v + s] where [v] is [undefined] or a string, and [s] a string. *)
Definition plus (v : option string) (s : string) : string :=
  match v with
  | Some x => x ++ s
  | None => "undefined" ++ s
  end.

(** [`${v}`] where [v] is [undefined] or a string. *)
Definition template (v : option string) : string := plus v "".

End Js.

(** ** The world outside the repository *)

Module Ext.

Import Js.

Definition ObjectId : Type := N.

(** The error object a rejected [axios.post] or [cloudinary.uploader.upload]
    carries, as far as the [catch] block reads it: [error.response.status]
    when [error.response] is set, and [error.code]. *)
Record JsError : Type := mkJsError {
  error_response_status : option Z;
  error_code : option string
}.

(** A fulfilled [axios.post] with [responseType: 'arraybuffer']. *)
Record AxiosResponse : Type := mkAxiosResponse {
  headers_content_type : option string;
  data : list Byte.byte
}.

(** What [jwt.verify] does with a token: it returns the decoded payload
    (of which the code reads [decoded.user], and of that the [id]) or
    throws an error with a [name]. *)
Inductive VerifyResult : Type :=
| Decoded (user : option ObjectId)
| VerifyThrows (name : string).

Record World : Type := mkWorld {
  (* process.env and cloudinary.config() *)
  ART_API_URL : option string;
  ART_API_TOKEN : option string;
  cloud_name : option string;
  api_key : option string;
  api_secret : option string;
  (* axios.post(url, { inputs }, { headers: { Authorization } }) *)
  axios_post : string -> string -> string -> AxiosResponse + JsError;
  (* cloudinary.uploader.upload(dataURI, { folder, tags }), giving secure_url *)
  cloudinary_upload : string -> string -> list string -> string + JsError;
  (* jwt.verify(token, process.env.JWT_SECRET) *)
  jwt_verify : string -> VerifyResult;
  (* User.findOne({ email }), giving partner.id *)
  User_findOne : string -> option ObjectId;
  (* the _id a new document gets, and Date.now() *)
  new_ObjectId : ObjectId;
  Date_now : Z;
  (* the document layer casting a value that is neither a string nor
     null/undefined to a String path: the string, or the message of the
     cast error *)
  castString_foreign : value -> string + string;
  (* the document layer casting a route parameter to an ObjectId *)
  castObjectId : string -> option ObjectId
}.

(** The external effects a request performs. *)
Inductive event : Type :=
| EAxiosPost (url inputs authorization : string)
| ECloudinaryUpload (dataURI folder : string) (tags : list string)
| ESetTimeout (ms : Z).

Definition is_external_call (e : event) : bool :=
  match e with
  | EAxiosPost _ _ _ | ECloudinaryUpload _ _ _ => true
  | ESetTimeout _ => false
  end.

Definition is_post (e : event) : bool :=
  match e with EAxiosPost _ _ _ => true | _ => false end.

Definition is_upload (e : event) : bool :=
  match e with ECloudinaryUpload _ _ _ => true | _ => false end.

(** Thrown JavaScript errors, by [name]. *)
Inductive exn : Type :=
| Error (message : string)
| ValidationError (errors : list (string * string))
| CastError (message : string)
| MongoServerError (message : string).

Definition exn_name (e : exn) : string :=
  match e with
  | Error _ => "Error"
  | ValidationError _ => "ValidationError"
  | CastError _ => "CastError"
  | MongoServerError _ => "MongoServerError"
  end.

(** [err.message]; for a validation error the document layer writes
    ["Art validation failed: <path>: <message>, ..."]. *)
Definition exn_message (e : exn) : string :=
  match e with
  | Error m | CastError m | MongoServerError m => m
  | ValidationError errs =>
      "Art validation failed: "
      ++ JsString.join ", " (List.map (fun pm => fst pm ++ ": " ++ snd pm) errs)
  end.

Inductive outcome (A : Type) : Type :=
| Return (a : A)
| Throw (e : exn).
Arguments Return {A} a.
Arguments Throw {A} e.

(** [Buffer.from(bytes).toString('base64')] *)
Definition base64_alphabet : string :=
  "ABCDEFGHIJKLMNOPQRSTUVWXYZabcdefghijklmnopqrstuvwxyz0123456789+/".

Definition base64_digit (n : N) : ascii :=
  match String.get (N.to_nat n) base64_alphabet with
  | Some c => c
  | None => "="%char
  end.

Fixpoint base64 (l : list Byte.byte) : string :=
  match l with
  | [] => ""
  | [a] =>
      let a := Byte.to_N a in
      String (base64_digit (a / 4))
        (String (base64_digit ((a mod 4) * 16)) "==")
  | [a; b] =>
      let a := Byte.to_N a in
      let b := Byte.to_N b in
      String (base64_digit (a / 4))
        (String (base64_digit ((a mod 4) * 16 + b / 16))
           (String (base64_digit ((b mod 16) * 4)) "="))
  | a :: b :: c :: r =>
      let a := Byte.to_N a in
      let b := Byte.to_N b in
      let c := Byte.to_N c in
      String (base64_digit (a / 4))
        (String (base64_digit ((a mod 4) * 16 + b / 16))
           (String (base64_digit ((b mod 16) * 4 + c / 64))
              (String (base64_digit (c mod 64)) (base64 r))))
  end%N.

End Ext.

(** ** models/Art.js *)

Module Art.

Import Js Ext.

(** A stored Art document (its [_id] is the key it is stored under). *)
Record doc : Type := mkDoc {
  userId : option ObjectId;
  mood : string;
  imageUrl : string;
  prompt : string;
  style : string;
  colors : list string;
  votes : Z;
  collaborators : list ObjectId;
  createdAt : Z
}.

(** The object handed to [new Art({...})] by the two creating routes.  A
    field the route does not pass is [None]. *)
Record init : Type := mkInit {
  init_userId : option ObjectId;
  init_mood : string;
  init_imageUrl : value;
  init_prompt : option string;
  init_style : option string;
  init_colors : option (list string);
  init_collaborators : option (list ObjectId)
}.

(** [artSchema.mood.enum.values] *)
Definition mood_enum : list string :=
  ["Happy"; "Sad"; "Calm"; "Excited"; "Angry"; "Inspired"; "Mixed"].

Definition mood_enum_message : string :=
  "Mood must be one of: Happy, Sad, Calm, Excited, Angry, Inspired, Mixed".

(** Casting to a String path: [None] for null/undefined. *)
Definition castString (w : World) (v : value) : option string + string :=
  match v with
  | VString s => inl (Some s)
  | VUndefined | VNull => inl None
  | _ => match castString_foreign w v with
         | inl s => inl (Some s)
         | inr m => inr m
         end
  end.

(** The validators of the [mood] path, run on the value after the [trim]
    setter: [required], then [enum]. *)
Definition validate_mood (m : string) : list (string * string) :=
  if String.eqb m "" then [("mood", "Mood is required")]
  else if bool_decide (m ∈ mood_enum) then []
  else [("mood", mood_enum_message)].

(** The [imageUrl] path.  A failed cast is recorded when the document is
    built, before any validator runs; the [required] validator sees the
    value that was cast. *)
Definition cast_error_imageUrl (c : option string + string) : list (string * string) :=
  match c with
  | inr m => [("imageUrl", m)]
  | inl _ => []
  end.

Definition validate_imageUrl (c : option string + string) : list (string * string) :=
  match c with
  | inr _ => []
  | inl None => [("imageUrl", "Image URL is required")]
  | inl (Some u) => if String.eqb u "" then [("imageUrl", "Image URL is required")] else []
  end.

(** [new Art(i)] followed by the validation that [save()] runs first:
    setters and defaults of the schema applied, then the validators.  The
    errors are listed as they are recorded: a cast error first, then the
    validators' errors in schema order. *)
Definition create (w : World) (i : init) : outcome doc :=
  let m := JsString.trim (init_mood i) in
  let u := castString w (init_imageUrl i) in
  match (cast_error_imageUrl u ++ validate_mood m ++ validate_imageUrl u)%list with
  | [] =>
      Return {| userId := init_userId i;
                mood := m;
                imageUrl := match u with inl (Some s) => s | _ => "" end;
                prompt := match init_prompt i with
                          | Some p => JsString.trim p
                          | None => ""
                          end;
                style := default "Abstract" (init_style i);
                colors := default [] (init_colors i);
                votes := 0;
                collaborators := default [] (init_collaborators i);
                createdAt := Date_now w |}
  | errs => Throw (ValidationError errs)
  end.

(** [newArt.save()]: validate, then insert under the new [_id]; the
    collection rejects a duplicate key. *)
Definition save_new (w : World) (i : init) (db : gmap ObjectId doc)
  : gmap ObjectId doc * outcome (ObjectId * doc) :=
  match create w i with
  | Throw e => (db, Throw e)
  | Return d =>
      match db !! new_ObjectId w with
      | Some _ => (db, Throw (MongoServerError "E11000 duplicate key error"))
      | None => (<[new_ObjectId w := d]> db, Return (new_ObjectId w, d))
      end
  end.

(** [Art.findById(id)] *)
Definition findById (w : World) (db : gmap ObjectId doc) (id : string)
  : outcome (option (ObjectId * doc)) :=
  match castObjectId w id with
  | None => Throw (CastError "Cast to ObjectId failed")
  | Some oid =>
      match db !! oid with
      | Some d => Return (Some (oid, d))
      | None => Return None
      end
  end.

(** [art.votes += 1] *)
Definition add_vote (d : doc) : doc :=
  {| userId := userId d; mood := mood d; imageUrl := imageUrl d;
     prompt := prompt d; style := style d; colors := colors d;
     votes := votes d + 1;
     collaborators := collaborators d; createdAt := createdAt d |}.

(** The orders of [.sort({ createdAt: 1 })] and [.sort({ createdAt: -1 })]. *)
Definition ascending (a b : ObjectId * doc) : Prop :=
  (createdAt (snd a) <= createdAt (snd b))%Z.
Definition descending (a b : ObjectId * doc) : Prop :=
  (createdAt (snd b) <= createdAt (snd a))%Z.

#[export] Instance ascending_dec a b : Decision (ascending a b).
Proof. unfold ascending. apply _. Defined.
#[export] Instance descending_dec a b : Decision (descending a b).
Proof. unfold descending. apply _. Defined.

(** [Art.find(filter).sort({ createdAt: -1 })] and [.sort({ createdAt: 1 })];
    the order among documents of equal [createdAt] is the sort's. *)
Definition find_sorted (newest_first : bool) (keep : ObjectId * doc -> bool)
    (db : gmap ObjectId doc) : list (ObjectId * doc) :=
  let hits := List.filter keep (map_to_list db) in
  if newest_first then merge_sort descending hits else merge_sort ascending hits.

End Art.

(** ** routes/artRoutes.js *)

Module ArtRoutes.

Import Js Ext.

Definition msg_invalid_prompt : string :=
  "Art generation prompt cannot be empty or invalid.".
Definition msg_auth_failed : string :=
  "AI API authentication failed. Check your ART_API_TOKEN.".
Definition msg_rate_limit : string :=
  "AI API rate limit exceeded. Please try again later.".
Definition msg_connect : string :=
  "Could not connect to AI API. Check ART_API_URL or your internet connection.".
Definition msg_generic : string :=
  "Failed to generate art from external service or upload image.".

(** The object literal [mockImageUrls]. *)
Definition mockImageUrls : list (string * value) :=
  [ ("happy", VString "https://placehold.co/600x450/FFD700/000000?text=Happy+Art");
    ("sad", VString "https://placehold.co/600x450/87CEEB/FFFFFF?text=Sad+Art");
    ("calm", VString "https://placehold.co/600x450/90EE90/000000?text=Calm+Art");
    ("excited", VString "https://placehold.co/600x450/FF6347/FFFFFF?text=Excited+Art");
    ("angry", VString "https://placehold.co/600x450/DC143C/FFFFFF?text=Angry+Art");
    ("inspired", VString "https://placehold.co/600x450/BA55D3/FFFFFF?text=Inspired+Art");
    ("mixed", VString "https://placehold.co/600x450/CCCCCC/000000?text=Mixed+Art");
    ("default", VString "https://placehold.co/600x450/A9A9A9/FFFFFF?text=Generated+Art") ].

(** [prompt.toLowerCase().split(',')[0].trim()] *)
Definition cleanedPrompt (prompt : string) : string :=
  JsString.trim (JsString.first (JsString.split "," (JsString.toLowerCase prompt))).

(** [mockImageUrls[cleanedPrompt] || mockImageUrls['default']] *)
Definition generatedImageUrl (prompt : string) : value :=
  or_else (get mockImageUrls (cleanedPrompt prompt)) (get mockImageUrls "default").

(** The condition of the fallback to mock images. *)
Definition credentials_missing (w : World) : bool :=
  negb (present (ART_API_URL w)) || negb (present (ART_API_TOKEN w))
  || negb (present (cloud_name w)) || negb (present (api_key w))
  || negb (present (api_secret w)).

(** The [catch] block of [generateArtFromAPI]: the error it rethrows. *)
Definition rethrow (error : JsError) : exn :=
  if bool_decide (error_response_status error = Some 401%Z) then Error msg_auth_failed
  else if bool_decide (error_response_status error = Some 429%Z) then Error msg_rate_limit
  else if bool_decide (error_code error = Some "ECONNREFUSED")
          || bool_decide (error_code error = Some "ENOTFOUND")
  then Error msg_connect
  else Error msg_generic.

(** The arguments of the two external calls. *)
Definition post_url (w : World) : string := template (ART_API_URL w).
Definition post_authorization (w : World) : string :=
  "Bearer " ++ template (ART_API_TOKEN w).

Definition dataURI (response : AxiosResponse) : string :=
  let contentType :=
    if present (headers_content_type response)
    then template (headers_content_type response) else "image/png" in
  let base64Image := base64 (data response) in
  "data:" ++ contentType ++ ";base64," ++ base64Image.

Definition upload_folder : string := "mood_art_generator".
Definition upload_tags (prompt : string) : list string :=
  [cleanedPrompt prompt; "mood_art"].

Definition generateArtFromAPI (w : World) (prompt : value) : list event * outcome value :=
  if negb (truthy prompt)
     || negb (String.eqb (typeof prompt) "string")
     || String.eqb (JsString.trim (chars prompt)) ""
  then ([], Throw (Error msg_invalid_prompt))
  else if credentials_missing w
  then ([ESetTimeout 3000], Return (generatedImageUrl (chars prompt)))
  else
    let post := EAxiosPost (post_url w) (chars prompt) (post_authorization w) in
    match axios_post w (post_url w) (chars prompt) (post_authorization w) with
    | inr error => ([post], Throw (rethrow error))
    | inl response =>
        let upload :=
          ECloudinaryUpload (dataURI response) upload_folder (upload_tags (chars prompt)) in
        match cloudinary_upload w (dataURI response) upload_folder
                (upload_tags (chars prompt)) with
        | inr error => ([post; upload], Throw (rethrow error))
        | inl secure_url => ([post; upload], Return (VString secure_url))
        end
    end.

(** A failure of one of the two external calls on the real path, with the
    error it carries and the external effects performed up to it. *)
Inductive real_path_fails (w : World) (prompt : string) : JsError -> list event -> Prop :=
| generation_call_fails error :
    axios_post w (post_url w) prompt (post_authorization w) = inr error ->
    real_path_fails w prompt error
      [EAxiosPost (post_url w) prompt (post_authorization w)]
| upload_call_fails response error :
    axios_post w (post_url w) prompt (post_authorization w) = inl response ->
    cloudinary_upload w (dataURI response) upload_folder (upload_tags prompt) = inr error ->
    real_path_fails w prompt error
      [EAxiosPost (post_url w) prompt (post_authorization w);
       ECloudinaryUpload (dataURI response) upload_folder (upload_tags prompt)].

(** [optionalAuth]: the [req.user] it leaves behind (as the [id] the routes
    read from it); it always calls [next()]. *)
Definition optionalAuth (w : World) (token : option string) : option ObjectId :=
  if present token then
    match jwt_verify w (template token) with
    | Decoded user => user
    | VerifyThrows _ => None
    end
  else None.

Inductive body : Type :=
| Msg (msg : string)
| ArtJson (id : ObjectId) (d : Art.doc)
| ArtList (l : list (ObjectId * Art.doc)).

Record Response : Type := mkResponse { status : Z; json : body }.

(** The JSON body of [POST /api/art]. *)
Record ArtBody : Type := mkArtBody {
  b_mood : option string;
  b_prompt : option string;
  b_style : option string;
  b_colors : option (list string)
}.

(** The prompt [POST /api/art] composes: [undefined] or a string. *)
Definition artPrompt (b : ArtBody) : option string :=
  let artPrompt := b_mood b in
  let artPrompt :=
    if present (b_prompt b)
    then Some ((if present (b_mood b) then plus (b_mood b) ", " else "")
               ++ template (b_prompt b))
    else artPrompt in
  let artPrompt :=
    if present (b_style b)
    then Some (plus artPrompt (", in " ++ template (b_style b) ++ " style"))
    else artPrompt in
  let artPrompt :=
    match b_colors b with
    | Some colors =>
        if (0 <? length colors)%nat
        then Some (plus artPrompt (", with colors " ++ JsString.join ", " colors))
        else artPrompt
    | None => artPrompt
    end in
  artPrompt.

(** The [catch] block of [POST /api/art]. *)
Definition catch_art (err : exn) : Response :=
  match err with
  | ValidationError errors =>
      mkResponse 400 (Msg (JsString.join ", " (List.map snd errors)))
  | _ =>
      mkResponse 500
        (Msg (if String.eqb (exn_message err) "" then "Server error generating art."
              else exn_message err))
  end.

(** The object [POST /api/art] passes to [new Art]. *)
Definition newArt (userId : option ObjectId) (b : ArtBody) (imageUrl : value) : Art.init :=
  {| Art.init_userId := userId;
     Art.init_mood := if present (b_mood b) then template (b_mood b) else "Mixed";
     Art.init_imageUrl := imageUrl;
     Art.init_prompt := b_prompt b;
     Art.init_style := b_style b;
     Art.init_colors := b_colors b;
     Art.init_collaborators := None |}.

(** [router.post('/', optionalAuth, ...)] *)
Definition post_art (w : World) (token : option string) (b : ArtBody)
    (db : gmap ObjectId Art.doc) : gmap ObjectId Art.doc * list event * Response :=
  let userId := optionalAuth w token in
  match generateArtFromAPI w (of_field (artPrompt b)) with
  | (io, Throw err) => (db, io, catch_art err)
  | (io, Return imageUrl) =>
      match Art.save_new w (newArt userId b imageUrl) db with
      | (db', Throw err) => (db', io, catch_art err)
      | (db', Return (id, d)) => (db', io, mkResponse 201 (ArtJson id d))
      end
  end.

Definition same_user (u : option ObjectId) (kd : ObjectId * Art.doc) : bool :=
  bool_decide (Art.userId (snd kd) = u).

(** [router.get('/history', optionalAuth, ...)] *)
Definition get_history (w : World) (token : option string)
    (db : gmap ObjectId Art.doc) : gmap ObjectId Art.doc * list event * Response :=
  let userId := optionalAuth w token in
  let userArt :=
    match userId with
    | Some _ => Art.find_sorted true (same_user userId) db
    | None => []
    end in
  (db, [], mkResponse 200 (ArtList userArt)).

(** [router.post('/:id/vote', optionalAuth, ...)] *)
Definition post_vote (w : World) (token : option string) (id : string)
    (db : gmap ObjectId Art.doc) : gmap ObjectId Art.doc * list event * Response :=
  match Art.findById w db id with
  | Throw _ => (db, [], mkResponse 500 (Msg "Server error processing vote."))
  | Return None => (db, [], mkResponse 404 (Msg "Art piece not found."))
  | Return (Some (oid, art)) =>
      let art := Art.add_vote art in
      (<[oid := art]> db, [], mkResponse 200 (ArtJson oid art))
  end.

(** [router.get('/evolution/:mood', optionalAuth, ...)].  The filter value
    of [Art.find({ userId, mood })] goes through the setter of the [mood]
    path, [trim], before it is compared with the stored moods. *)
Definition get_evolution (w : World) (token : option string) (mood : string)
    (db : gmap ObjectId Art.doc) : gmap ObjectId Art.doc * list event * Response :=
  let userId := optionalAuth w token in
  let artEvolution :=
    match userId with
    | Some _ =>
        Art.find_sorted false
          (fun kd => same_user userId kd
                     && String.eqb (Art.mood (snd kd)) (JsString.trim mood)) db
    | None => []
    end in
  (db, [], mkResponse 200 (ArtList artEvolution)).

(** The JSON body of [POST /api/art/collaborate]. *)
Record CollaborateBody : Type := mkCollaborateBody {
  b_mood1 : option string;
  b_mood2 : option string;
  b_partnerEmail : option string
}.

(** The prompt and the mood of a collaboration. *)
Definition collaborate_prompt (b : CollaborateBody) : string :=
  "Collaborative art blending " ++ template (b_mood1 b) ++ " and " ++ template (b_mood2 b).
Definition collaborate_mood (b : CollaborateBody) : string :=
  template (b_mood1 b) ++ " & " ++ template (b_mood2 b).

(** [[...new Set(collaborators)]] *)
Fixpoint unique (l : list ObjectId) : list ObjectId :=
  match l with
  | [] => []
  | x :: r => x :: List.filter (fun y => negb (N.eqb x y)) (unique r)
  end.

(** The [catch] block of [POST /api/art/collaborate]. *)
Definition catch_collaborate (err : exn) : Response :=
  mkResponse 500
    (Msg (if String.eqb (exn_message err) ""
          then "Server error blending moods for collaboration."
          else exn_message err)).

(** The collaborators the route collects, and the object it passes to
    [new Art]. *)
Definition collaborators_of (userId partnerUserId : option ObjectId) : list ObjectId :=
  ((match userId with Some u => [u] | None => [] end)
   ++ (match partnerUserId with
       | Some p => if bool_decide (partnerUserId <> userId) then [p] else []
       | None => []
       end))%list.

Definition newCollaboration (userId partnerUserId : option ObjectId)
    (b : CollaborateBody) (imageUrl : value) : Art.init :=
  {| Art.init_userId := userId;
     Art.init_mood := collaborate_mood b;
     Art.init_imageUrl := imageUrl;
     Art.init_prompt := Some (collaborate_prompt b);
     Art.init_style := None;
     Art.init_colors := None;
     Art.init_collaborators := Some (unique (collaborators_of userId partnerUserId)) |}.

(** [router.post('/collaborate', optionalAuth, ...)] *)
Definition post_collaborate (w : World) (token : option string) (b : CollaborateBody)
    (db : gmap ObjectId Art.doc) : gmap ObjectId Art.doc * list event * Response :=
  let userId := optionalAuth w token in
  if negb (present (b_mood1 b)) || negb (present (b_mood2 b))
  then (db, [], mkResponse 400 (Msg "Both moods are required for collaboration."))
  else
    let partnerUserId :=
      if present (b_partnerEmail b) then User_findOne w (template (b_partnerEmail b))
      else None in
    match generateArtFromAPI w (VString (collaborate_prompt b)) with
    | (io, Throw err) => (db, io, catch_collaborate err)
    | (io, Return imageUrl) =>
        match Art.save_new w (newCollaboration userId partnerUserId b imageUrl) db with
        | (db', Throw err) => (db', io, catch_collaborate err)
        | (db', Return (id, d)) => (db', io, mkResponse 201 (ArtJson id d))
        end
    end.

(** The requests the router serves. *)
Inductive Request : Type :=
| PostArt (token : option string) (b : ArtBody)
| GetHistory (token : option string)
| PostVote (token : option string) (id : string)
| GetEvolution (token : option string) (mood : string)
| PostCollaborate (token : option string) (b : CollaborateBody).

Definition handle (w : World) (r : Request) (db : gmap ObjectId Art.doc)
    : gmap ObjectId Art.doc * list event * Response :=
  match r with
  | PostArt token b => post_art w token b db
  | GetHistory token => get_history w token db
  | PostVote token id => post_vote w token id db
  | GetEvolution token mood => get_evolution w token mood db
  | PostCollaborate token b => post_collaborate w token b db
  end.

(** The request with its [x-auth-token] header replaced. *)
Definition with_token (t : option string) (r : Request) : Request :=
  match r with
  | PostArt _ b => PostArt t b
  | GetHistory _ => GetHistory t
  | PostVote _ id => PostVote t id
  | GetEvolution _ mood => GetEvolution t mood
  | PostCollaborate _ b => PostCollaborate t b
  end.

(** The prompt a request passes to [generateArtFromAPI], when it gets as
    far as calling it. *)
Definition image_prompt (r : Request) : option value :=
  match r with
  | PostArt _ b => Some (of_field (artPrompt b))
  | PostCollaborate _ b =>
      if negb (present (b_mood1 b)) || negb (present (b_mood2 b)) then None
      else Some (VString (collaborate_prompt b))
  | _ => None
  end.

(** The collections the server can reach from an empty one; the world may
    differ from request to request. *)
Inductive reachable : gmap ObjectId Art.doc -> Prop :=
| reachable_empty : reachable ∅
| reachable_handle w r db : reachable db -> reachable (handle w r db).1.1.

End ArtRoutes.

(** ** middleware/auth.js *)

Module Auth.

Import Js Ext.

(** What the middleware does: call [next()] with [req.user] set, or answer. *)
Inductive result : Type :=
| Next (user : option ObjectId)
| Reply (status : Z) (msg : string).

Definition msg_no_token : string :=
  "No authentication token provided. Authorization denied.".
Definition msg_expired : string :=
  "Authentication token has expired. Please log in again.".
Definition msg_invalid : string :=
  "Invalid authentication token. Authorization denied.".
Definition msg_server_error : string :=
  "Server error during token verification.".

Definition auth (w : World) (token : option string) : result :=
  if negb (present token) then Reply 401 msg_no_token
  else
    match jwt_verify w (template token) with
    | Decoded user => Next user
    | VerifyThrows name =>
        if String.eqb name "TokenExpiredError" then Reply 401 msg_expired
        else if String.eqb name "JsonWebTokenError" then Reply 401 msg_invalid
        else Reply 500 msg_server_error
    end.

End Auth.

(** ** The specification's words, for comparison with the code *)

Module Spec.

Import Js Ext ArtRoutes.

Definition text (o : option string) : string := default "" o.

(** The composed prompt as the specification words it: mood alone if the
    prompt is absent, prompt alone if the mood is absent, ["<mood>, <prompt>"]
    if both are present; then the style suffix if a style is present; then
    the colour suffix if the colour list is non-empty.  A field is present
    when it holds a non-empty string. *)
Definition start (b : ArtBody) : string :=
  match present (b_mood b), present (b_prompt b) with
  | true, true => text (b_mood b) ++ ", " ++ text (b_prompt b)
  | true, false => text (b_mood b)
  | false, true => text (b_prompt b)
  | false, false => ""
  end.

Definition style_suffix (b : ArtBody) : string :=
  if present (b_style b) then ", in " ++ text (b_style b) ++ " style" else "".

Definition colors_suffix (b : ArtBody) : string :=
  match b_colors b with
  | Some (c :: cs) => ", with colors " ++ JsString.join ", " (c :: cs)
  | _ => ""
  end.

Definition compose (b : ArtBody) : string :=
  start b ++ style_suffix b ++ colors_suffix b.

(** The Mock Image Selector as the specification words it. *)
Fixpoint before (c : ascii) (s : string) : string :=
  match s with
  | EmptyString => EmptyString
  | String d r => if Ascii.eqb d c then EmptyString else String d (before c r)
  end.

Definition normalize (prompt : string) : string :=
  JsString.trim (before "," (JsString.toLowerCase prompt)).

Definition known_moods : list (string * string) :=
  [ ("happy", "https://placehold.co/600x450/FFD700/000000?text=Happy+Art");
    ("sad", "https://placehold.co/600x450/87CEEB/FFFFFF?text=Sad+Art");
    ("calm", "https://placehold.co/600x450/90EE90/000000?text=Calm+Art");
    ("excited", "https://placehold.co/600x450/FF6347/FFFFFF?text=Excited+Art");
    ("angry", "https://placehold.co/600x450/DC143C/FFFFFF?text=Angry+Art");
    ("inspired", "https://placehold.co/600x450/BA55D3/FFFFFF?text=Inspired+Art");
    ("mixed", "https://placehold.co/600x450/CCCCCC/000000?text=Mixed+Art") ].

Definition default_reference : string :=
  "https://placehold.co/600x450/A9A9A9/FFFFFF?text=Generated+Art".

Fixpoint assoc (k : string) (l : list (string * string)) : option string :=
  match l with
  | [] => None
  | (k', v) :: r => if String.eqb k k' then Some v else assoc k r
  end.

Definition selectMock (prompt : string) : string :=
  default default_reference (assoc (normalize prompt) known_moods).

End Spec.

(** ** Worlds and requests used as concrete inputs *)

Module Examples.

Import Js Ext ArtRoutes.

(** No provider configured; every token is malformed. *)
Definition mock_world : World :=
  {| ART_API_URL := None; ART_API_TOKEN := None;
     cloud_name := None; api_key := None; api_secret := None;
     axios_post := fun _ _ _ => inr (mkJsError None None);
     cloudinary_upload := fun _ _ _ => inr (mkJsError None None);
     jwt_verify := fun _ => VerifyThrows "JsonWebTokenError";
     User_findOne := fun _ => None;
     new_ObjectId := 1%N;
     Date_now := 1700000000000%Z;
     castString_foreign := fun _ => inr "Cast to string failed";
     castObjectId := fun id => if String.eqb id "000000000000000000000001"
                               then Some 1%N else None |}.

(** Both providers configured; the image provider answers [status]. *)
Definition failing_world (status : option Z) (code : option string) : World :=
  {| ART_API_URL := Some "https://api.example/models/art";
     ART_API_TOKEN := Some "hf_token";
     cloud_name := Some "demo"; api_key := Some "key"; api_secret := Some "secret";
     axios_post := fun _ _ _ => inr (mkJsError status code);
     cloudinary_upload := fun _ _ _ => inl "https://res.cloudinary.com/demo/a.png";
     jwt_verify := fun _ => VerifyThrows "TokenExpiredError";
     User_findOne := fun _ => None;
     new_ObjectId := 1%N;
     Date_now := 1700000000000%Z;
     castString_foreign := fun _ => inr "Cast to string failed";
     castObjectId := fun _ => None |}.

Definition diary_entry : ArtBody :=
  {| b_mood := None; b_prompt := Some "a quiet evening by the sea";
     b_style := None; b_colors := None |}.

Definition style_only : ArtBody :=
  {| b_mood := None; b_prompt := None; b_style := Some "Abstract"; b_colors := None |}.

Definition happy_abstract : ArtBody :=
  {| b_mood := Some "Happy"; b_prompt := Some "";
     b_style := Some "Abstract"; b_colors := Some ["red"; "blue"] |}.

Definition happy_and_sad : CollaborateBody :=
  {| b_mood1 := Some "Happy"; b_mood2 := Some "Sad"; b_partnerEmail := None |}.

(** The collection after one anonymous diary request, and the document
    that request stores. *)
Definition one_piece : gmap ObjectId Art.doc :=
  (post_art mock_world None diary_entry ∅).1.1.

Definition diary_piece : Art.doc :=
  {| Art.userId := None; Art.mood := "Mixed";
     Art.imageUrl := "https://placehold.co/600x450/A9A9A9/FFFFFF?text=Generated+Art";
     Art.prompt := "a quiet evening by the sea";
     Art.style := "Abstract"; Art.colors := [];
     Art.votes := 0; Art.collaborators := [];
     Art.createdAt := 1700000000000 |}.

End Examples.

(** ** models/User.js *)

Module User.

Import Js Ext.

(** A stored User document. *)
Record doc : Type := mkDoc {
  email : string;
  password : string;
  avatar : string;
  createdAt : Z
}.

(** The object [new User({ email, password: hashedPassword, avatar })]
    receives. *)
Record init : Type := mkInit {
  init_email : option string;
  init_password : string;
  init_avatar : string
}.

(** The setters of the [email] path: [trim] and [lowercase].  (They commute,
    see [trim_toLowerCase].) *)
Definition normalize (e : string) : string :=
  JsString.trim (JsString.toLowerCase e).

(** What [.] matches in a regular expression without flags: everything but
    a line terminator. *)
Definition dot (c : ascii) : bool :=
  negb (Ascii.eqb c "010" || Ascii.eqb c "013").

(** Does [s] start with a match of [.+\..+]?  [seen] tells that the first
    [.+] has already consumed a character. *)
Fixpoint after_at (seen : bool) (s : string) : bool :=
  match s with
  | EmptyString => false
  | String c r =>
      if dot c then
        if seen && Ascii.eqb c "."
           && match r with String d _ => dot d | EmptyString => false end
        then true
        else after_at true r
      else false
  end.

(** [/.+@.+\..+/.test(s)] *)
Fixpoint email_match (s : string) : bool :=
  match s with
  | EmptyString => false
  | String c r =>
      match r with
      | String a r' =>
          (dot c && Ascii.eqb a "@" && after_at false r') || email_match r
      | EmptyString => false
      end
  end.

(** The strings the expression matches somewhere, said directly: one
    character of a line, ["@"], at least one character of the same line,
    ["."], one more character of that line. *)
Definition on_one_line (s : string) : bool :=
  negb (JsString.some_char (fun c => negb (dot c)) s).

Definition email_shape (s : string) : Prop :=
  exists pre x mid y post,
    s = pre ++ String x (String "@" (mid ++ String "." (String y post)))
    /\ dot x = true /\ mid <> "" /\ on_one_line mid = true /\ dot y = true.

(** The validators of the [email] path ([required], then [match]) and of the
    [password] path ([required], then [minlength]). *)
Definition validate_email (e : option string) : list (string * string) :=
  match e with
  | None => [("email", "Email is required")]
  | Some v =>
      if String.eqb v "" then [("email", "Email is required")]
      else if email_match v then []
      else [("email", "Please enter a valid email address")]
  end.

Definition validate_password (p : string) : list (string * string) :=
  if String.eqb p "" then [("password", "Password is required")]
  else if (String.length p <? 6)%nat
  then [("password", "Password must be at least 6 characters long")]
  else [].

(** [new User(i)] and the validation [save()] starts with. *)
Definition create (now : Z) (i : init) : outcome doc :=
  let e := normalize <$> init_email i in
  match (validate_email e ++ validate_password (init_password i))%list with
  | [] => Return {| email := default "" e;
                    password := init_password i;
                    avatar := init_avatar i;
                    createdAt := now |}
  | errs => Throw (ValidationError errs)
  end.

(** The first stored user with the given email. *)
Definition with_email (e : string) (users : gmap ObjectId doc) : option (ObjectId * doc) :=
  List.find (fun kd => String.eqb (email (snd kd)) e) (map_to_list users).

(** [User.findOne({ email })]: the filter value goes through the setters of
    the path; an absent value matches no stored user. *)
Definition findOne (e : option string) (users : gmap ObjectId doc) : option (ObjectId * doc) :=
  match e with
  | Some v => with_email (normalize v) users
  | None => None
  end.

(** [user.save()] for a new user with id [id]: validation, then the insert,
    which the unique index on [email] (or a taken id) can refuse. *)
Definition save_new (id : ObjectId) (now : Z) (i : init) (users : gmap ObjectId doc)
  : gmap ObjectId doc * outcome (ObjectId * doc) :=
  match create now i with
  | Throw e => (users, Throw e)
  | Return d =>
      match with_email (email d) users, users !! id with
      | None, None => (<[id := d]> users, Return (id, d))
      | _, _ => (users, Throw (MongoServerError "E11000 duplicate key error"))
      end
  end.

End User.

(** ** routes/authRoutes.js *)

Module AuthRoutes.

Import Js Ext.

(** What the two routes use from outside the repository. *)
Record AuthWorld : Type := mkAuthWorld {
  (* bcrypt.hash(password, await bcrypt.genSalt(10)) on a string *)
  bcrypt_hash : string -> string;
  (* bcrypt.compare(password, hash) on two strings *)
  bcrypt_compare : string -> string -> bool;
  (* jwt.sign({ user: { id } }, process.env.JWT_SECRET, { expiresIn: '1h' }) *)
  jwt_sign : ObjectId -> string;
  (* the id of a new user document, and Date.now() *)
  new_user_id : ObjectId;
  user_now : Z
}.

Inductive body : Type :=
| Json (msg : string)
| Text (text : string)
| Session (token avatar : string) (userId : ObjectId) (msg : string).

Record Response : Type := mkResponse { status : Z; sent : body }.

Record SignupBody : Type := mkSignupBody {
  s_email : option string;
  s_password : option string;
  s_mood : option string
}.

Record LoginBody : Type := mkLoginBody {
  l_email : option string;
  l_password : option string
}.

Definition msg_exists : string :=
  "User with this email already exists. Please use a different email or log in.".
Definition msg_invalid_credentials : string :=
  "Invalid Credentials. Please check your email and password.".
Definition msg_signup_error : string :=
  "Server error during signup. Please try again later.".
Definition msg_login_error : string :=
  "Server error during login. Please try again later.".

(** [mood ? `${mood.toLowerCase()}_emoji` : 'default_avatar'] *)
Definition avatar_of (mood : option string) : string :=
  if present mood then JsString.toLowerCase (template mood) ++ "_emoji"
  else "default_avatar".

(** The [catch] block of the signup route. *)
Definition catch_signup (err : exn) : Response :=
  match err with
  | ValidationError errors =>
      mkResponse 400 (Json (JsString.join ", " (List.map snd errors)))
  | _ => mkResponse 500 (Text msg_signup_error)
  end.

(** [router.post('/signup', ...)].  [bcrypt.hash] rejects a password that is
    not a string. *)
Definition signup (w : AuthWorld) (b : SignupBody) (users : gmap ObjectId User.doc)
  : gmap ObjectId User.doc * Response :=
  match User.findOne (s_email b) users with
  | Some _ => (users, mkResponse 400 (Json msg_exists))
  | None =>
      match s_password b with
      | None => (users, catch_signup (Error "Illegal arguments: undefined, string"))
      | Some password =>
          let hashedPassword := bcrypt_hash w password in
          let avatar := avatar_of (s_mood b) in
          let user := {| User.init_email := s_email b;
                         User.init_password := hashedPassword;
                         User.init_avatar := avatar |} in
          match User.save_new (new_user_id w) (user_now w) user users with
          | (users', Throw err) => (users', catch_signup err)
          | (users', Return (id, d)) =>
              (users',
               mkResponse 201
                 (Session (jwt_sign w id) (User.avatar d) id
                    "User registered successfully!"))
          end
      end
  end.

(** [router.post('/login', ...)].  [bcrypt.compare] rejects a password that
    is not a string. *)
Definition login (w : AuthWorld) (b : LoginBody) (users : gmap ObjectId User.doc)
  : gmap ObjectId User.doc * Response :=
  match User.findOne (l_email b) users with
  | None => (users, mkResponse 400 (Json msg_invalid_credentials))
  | Some (id, user) =>
      match l_password b with
      | None => (users, mkResponse 500 (Text msg_login_error))
      | Some password =>
          if bcrypt_compare w password (User.password user)
          then (users,
                mkResponse 200
                  (Session (jwt_sign w id) (User.avatar user) id "Logged in successfully!"))
          else (users, mkResponse 400 (Json msg_invalid_credentials))
      end
  end.

Inductive Request : Type :=
| Signup (b : SignupBody)
| Login (b : LoginBody).

Definition handle (w : AuthWorld) (r : Request) (users : gmap ObjectId User.doc)
  : gmap ObjectId User.doc * Response :=
  match r with
  | Signup b => signup w b users
  | Login b => login w b users
  end.

(** The user collections the two routes can reach from an empty one. *)
Inductive reachable : gmap ObjectId User.doc -> Prop :=
| reachable_empty : reachable ∅
| reachable_handle w r users : reachable users -> reachable (handle w r users).1.

End AuthRoutes.

(** ** backend/server.js *)

Module Server.

Import Js Ext.

(** The variables [server.js] reads besides the five provider settings. *)
Record ProcessEnv : Type := mkProcessEnv {
  PORT : option string;
  MONGO_URI : option string;
  JWT_SECRET : option string
}.

(** What the start-up code does, in order.  [process.exit] ends it. *)
Inductive step : Type :=
| ConsoleError (text : string)
| ConsoleWarn (text : string)
| ProcessExit (code : Z)
| MongooseConnect (uri : string)
| AppListen (port : value).

Definition err_mongo_uri : string :=
  "ERROR: MONGO_URI is not defined in .env. Please check your .env file.".
Definition err_jwt_secret : string :=
  "ERROR: JWT_SECRET is not defined in .env. Please check your .env file.".
Definition warn_art_api : string :=
  "WARNING: ART_API_URL or ART_API_TOKEN is not defined. Art generation will use mock data.".
Definition warn_cloudinary : string :=
  "WARNING: Cloudinary credentials are not fully defined. Generated images will NOT be permanently stored or accessible via public URLs unless you use a different storage solution.".
Definition err_connection : string := "MongoDB connection error:".

(** [process.env.PORT || 5000] *)
Definition port (env : ProcessEnv) : value :=
  or_else (of_field (PORT env)) (VNumber 5000).

Definition warnings (w : World) : list step :=
  ((if negb (present (ART_API_URL w)) || negb (present (ART_API_TOKEN w))
    then [ConsoleWarn warn_art_api] else [])
   ++ (if negb (present (cloud_name w)) || negb (present (api_key w))
          || negb (present (api_secret w))
       then [ConsoleWarn warn_cloudinary] else []))%list.

(** The module body of [server.js]; [connected] tells whether
    [mongoose.connect] is fulfilled or rejected later on. *)
Definition start (env : ProcessEnv) (w : World) (connected : bool) : list step :=
  if negb (present (MONGO_URI env)) then [ConsoleError err_mongo_uri; ProcessExit 1]
  else if negb (present (JWT_SECRET env)) then [ConsoleError err_jwt_secret; ProcessExit 1]
  else
    (warnings w
     ++ [MongooseConnect (template (MONGO_URI env)); AppListen (port env)]
     ++ (if connected then [] else [ConsoleError err_connection; ProcessExit 1]))%list.

Definition is_listen (s : step) : bool :=
  match s with AppListen _ => true | _ => false end.
Definition is_warn (s : step) : bool :=
  match s with ConsoleWarn _ => true | _ => false end.
Definition is_exit (s : step) : bool :=
  match s with ProcessExit _ => true | _ => false end.

End Server.

(** ** More concrete inputs *)

Module Scenarios.

Import Js Ext ArtRoutes.

(** Both providers configured and answering; the token ["t7"] belongs to
    user 7. *)
Definition real_world : World :=
  {| ART_API_URL := Some "https://api.example/models/art";
     ART_API_TOKEN := Some "hf_token";
     cloud_name := Some "demo"; api_key := Some "key"; api_secret := Some "secret";
     axios_post := fun _ _ _ =>
       inl (mkAxiosResponse None [Byte.x4d; Byte.x61; Byte.x6e]);
     cloudinary_upload := fun _ _ _ => inl "https://res.cloudinary.com/demo/a.png";
     jwt_verify := fun t => if String.eqb t "t7" then Decoded (Some 7%N)
                            else VerifyThrows "JsonWebTokenError";
     User_findOne := fun _ => None;
     new_ObjectId := 2%N;
     Date_now := 1700000000500%Z;
     castString_foreign := fun _ => inr "Cast to string failed";
     castObjectId := fun id => if String.eqb id "000000000000000000000001"
                               then Some 1%N else None |}.

(** A world in which every token is refused as not yet valid. *)
Definition early_world : World :=
  {| ART_API_URL := None; ART_API_TOKEN := None;
     cloud_name := None; api_key := None; api_secret := None;
     axios_post := fun _ _ _ => inr (mkJsError None None);
     cloudinary_upload := fun _ _ _ => inr (mkJsError None None);
     jwt_verify := fun _ => VerifyThrows "NotBeforeError";
     User_findOne := fun _ => None;
     new_ObjectId := 1%N;
     Date_now := 1700000000000%Z;
     castString_foreign := fun _ => inr "Cast to string failed";
     castObjectId := fun _ => None |}.

Definition sad_rain : ArtBody :=
  {| b_mood := Some "Sad"; b_prompt := Some "rain on the window";
     b_style := Some "Impressionist"; b_colors := Some ["grey"; "blue"] |}.

Definition joyful : ArtBody :=
  {| b_mood := Some "Joyful"; b_prompt := None; b_style := None; b_colors := None |}.

Definition auth_world : AuthRoutes.AuthWorld :=
  {| AuthRoutes.bcrypt_hash := fun p => "$2a$10$" ++ p;
     AuthRoutes.bcrypt_compare := fun p h => String.eqb ("$2a$10$" ++ p) h;
     AuthRoutes.jwt_sign := fun id => if N.eqb id 7 then "t7" else "t";
     AuthRoutes.new_user_id := 7%N;
     AuthRoutes.user_now := 1700000000000%Z |}.

Definition ada_signup : AuthRoutes.SignupBody :=
  {| AuthRoutes.s_email := Some "  Ada@Example.COM ";
     AuthRoutes.s_password := Some "secret1";
     AuthRoutes.s_mood := Some "Happy" |}.

Definition ada_login : AuthRoutes.LoginBody :=
  {| AuthRoutes.l_email := Some "ada@example.com";
     AuthRoutes.l_password := Some "secret1" |}.

Definition one_user : gmap ObjectId User.doc :=
  (AuthRoutes.signup auth_world ada_signup ∅).1.

Definition good_env : Server.ProcessEnv :=
  {| Server.PORT := None;
     Server.MONGO_URI := Some "mongodb://localhost/moodart";
     Server.JWT_SECRET := Some "s3cret" |}.

End Scenarios.

(** ** Shapes of strings and lists used in the statements *)

Module Shape.

(** Empty, or starting with a comma: what follows the mood in a composed
    prompt. *)
Definition comma_led (s : string) : Prop := s = "" \/ exists r, s = String "," r.

(** Two documents that differ at most in their vote counters. *)
Definition same_but_votes (a b : Art.doc) : Prop :=
  Art.userId a = Art.userId b /\ Art.mood a = Art.mood b
  /\ Art.imageUrl a = Art.imageUrl b /\ Art.prompt a = Art.prompt b
  /\ Art.style a = Art.style b /\ Art.colors a = Art.colors b
  /\ Art.collaborators a = Art.collaborators b
  /\ Art.createdAt a = Art.createdAt b.

(** The collection after a list of requests, each in its own world. *)
Definition run (rs : list (Ext.World * ArtRoutes.Request))
    (db : gmap Ext.ObjectId Art.doc) : gmap Ext.ObjectId Art.doc :=
  foldl (fun db wr => (ArtRoutes.handle wr.1 wr.2 db).1.1) db rs.

End Shape.

(** * Properties *)

Import Js Ext ArtRoutes.

(** ** Strings *)

Lemma trim_empty : JsString.trim "" = "".
Proof. reflexivity. Qed.

Lemma eqb_empty_false (s : string) : s <> "" -> String.eqb s "" = false.
Proof. intros H. now apply String.eqb_neq. Qed.

Lemma trim_nonblank_nonempty (s : string) : JsString.trim s <> "" -> s <> "".
Proof. intros H ->. now apply H. Qed.

Lemma append_cons (c : ascii) (r s : string) : String c r ++ s = String c (r ++ s).
Proof. reflexivity. Qed.

Lemma append_empty_r (s : string) : s ++ "" = s.
Proof.
  induction s as [| c r IH]; [reflexivity |].
  now rewrite append_cons, IH.
Qed.

Lemma append_assoc (a b c : string) : (a ++ b) ++ c = a ++ b ++ c.
Proof.
  induction a as [| x r IH]; [reflexivity |].
  now rewrite !append_cons, IH.
Qed.

Lemma some_char_append (P : ascii -> bool) (a b : string) :
  JsString.some_char P (a ++ b) = JsString.some_char P a || JsString.some_char P b.
Proof.
  induction a as [| x r IH]; [reflexivity |].
  rewrite append_cons. cbn [JsString.some_char]. rewrite IH. apply orb_assoc.
Qed.

(** Trimming removes white space only: the code units of any other kind
    are all still there. *)
Section Trim.

Variable P : ascii -> bool.
Hypothesis P_visible : forall c, JsString.is_whitespace c = true -> P c = false.

Lemma some_char_trimStart (s : string) :
  JsString.some_char P (JsString.trimStart s) = JsString.some_char P s.
Proof.
  induction s as [| d r IH]; [reflexivity |].
  cbn [JsString.trimStart].
  destruct (JsString.is_whitespace d) eqn:Hd; [| reflexivity].
  cbn [JsString.some_char]. now rewrite IH, P_visible.
Qed.

Lemma some_char_trimEnd (s : string) :
  JsString.some_char P (JsString.trimEnd s) = JsString.some_char P s.
Proof.
  induction s as [| d r IH]; [reflexivity |].
  cbn [JsString.trimEnd JsString.some_char].
  destruct (JsString.trimEnd r) as [| e t].
  - rewrite <- IH. cbn [JsString.some_char].
    destruct (JsString.is_whitespace d) eqn:Hd; [| reflexivity].
    cbn [JsString.some_char]. now rewrite P_visible.
  - cbn [JsString.some_char] in *. now rewrite IH.
Qed.

Lemma some_char_trim (s : string) :
  JsString.some_char P (JsString.trim s) = JsString.some_char P s.
Proof. unfold JsString.trim. now rewrite some_char_trimEnd, some_char_trimStart. Qed.

End Trim.

Lemma ampersand_visible (c : ascii) :
  JsString.is_whitespace c = true -> JsString.is_ampersand c = false.
Proof.
  intros H. unfold JsString.is_ampersand.
  destruct (Ascii.eqb_spec c "&") as [-> |]; [discriminate H | reflexivity].
Qed.

(** [toLowerCase] leaves no capital letter behind. *)
Lemma lower_char_not_capital (c : ascii) :
  JsString.is_capital (JsString.lower_char c) = false.
Proof.
  destruct c as [[] [] [] [] [] [] [] []]; reflexivity.
Qed.

Lemma toLowerCase_no_capital (s : string) :
  JsString.some_char JsString.is_capital (JsString.toLowerCase s) = false.
Proof.
  induction s as [| c r IH]; [reflexivity |].
  cbn [JsString.toLowerCase JsString.some_char].
  now rewrite lower_char_not_capital, IH.
Qed.

Lemma capital_visible (c : ascii) :
  JsString.is_whitespace c = true -> JsString.is_capital c = false.
Proof.
  destruct c as [[] [] [] [] [] [] [] []]; vm_compute; congruence.
Qed.

(** ** The prompt guard of [generateArtFromAPI] *)

Lemma guard_passes (s : string) :
  JsString.trim s <> "" ->
  negb (truthy (VString s))
  || negb (String.eqb (typeof (VString s)) "string")
  || String.eqb (JsString.trim (chars (VString s))) "" = false.
Proof.
  intros H. cbn [truthy typeof chars].
  rewrite (eqb_empty_false s) by now apply trim_nonblank_nonempty.
  rewrite (eqb_empty_false _ H). reflexivity.
Qed.

Lemma credentials_missing_intro (w : World) :
  present (ART_API_URL w) = false \/ present (ART_API_TOKEN w) = false
  \/ present (cloud_name w) = false \/ present (api_key w) = false
  \/ present (api_secret w) = false ->
  credentials_missing w = true.
Proof.
  unfold credentials_missing.
  intros [H | [H | [H | [H | H]]]]; rewrite H; cbn;
    rewrite ?orb_true_r; reflexivity.
Qed.

(** C3.  A prompt that is absent, is not a string, or is blank after
    trimming makes [generateArtFromAPI] throw the invalid-prompt error
    before anything else happens: no delay, no external call. *)
Theorem invalid_prompt_rejected (w : World) (prompt : value) :
  typeof prompt <> "string" \/ JsString.trim (chars prompt) = "" ->
  generateArtFromAPI w prompt = ([], Throw (Error msg_invalid_prompt)).
Proof.
  intros [H | H]; unfold generateArtFromAPI.
  - apply String.eqb_neq in H. rewrite H. cbn [negb].
    rewrite orb_true_r. reflexivity.
  - rewrite H. cbn [String.eqb]. rewrite orb_true_r. reflexivity.
Qed.

Lemma invalid_prompt_rejected_witness :
  typeof VUndefined <> "string"
  /\ generateArtFromAPI Examples.mock_world VUndefined
     = ([], Throw (Error msg_invalid_prompt)).
Proof.
  assert (H : typeof VUndefined <> "string") by (cbn; discriminate).
  split; [exact H |].
  apply (invalid_prompt_rejected Examples.mock_world VUndefined).
  left. exact H.
Defined.

(** The guard rejects nothing else: a string with a non-blank character
    passes it. *)
Lemma valid_prompt_accepted (w : World) (s : string) :
  JsString.trim s <> "" ->
  generateArtFromAPI w (VString s) <> ([], Throw (Error msg_invalid_prompt)).
Proof.
  intros H. unfold generateArtFromAPI. rewrite (guard_passes s H).
  destruct (credentials_missing w); [discriminate |].
  destruct (axios_post w _ _ _); [| discriminate].
  destruct (cloudinary_upload w _ _ _); discriminate.
Qed.

(** ** The mock table *)

Lemma first_split (c : ascii) (s : string) :
  JsString.first (JsString.split c s) = Spec.before c s.
Proof.
  induction s as [| d r IH]; [reflexivity |].
  cbn [JsString.split Spec.before].
  destruct (Ascii.eqb d c); [reflexivity |].
  destruct (JsString.split c r) as [| h t] eqn:E.
  - cbn in IH. rewrite <- IH. reflexivity.
  - cbn in IH |- *. now rewrite IH.
Qed.

Lemma cleanedPrompt_normalize (s : string) : cleanedPrompt s = Spec.normalize s.
Proof. unfold cleanedPrompt, Spec.normalize. now rewrite first_split. Qed.

(** The seven mood keywords have seven different references, none of them
    the default one. *)
Lemma mock_references_distinct :
  NoDup (Spec.default_reference :: List.map snd Spec.known_moods).
Proof. compute_done. Qed.

Ltac split_key k lit :=
  destruct (String.eqb_spec lit k) as [<- | ?]; [vm_compute; reflexivity |].

(** Where the normalized key is not the name of a property that every
    object inherits, the code's lookup is the specification's selector:
    the keyword's reference for the seven keywords, the default reference
    for everything else (the empty key included). *)
Lemma generatedImageUrl_selectMock (s : string) :
  cleanedPrompt s ∉ Object_prototype_names ->
  generatedImageUrl s = VString (Spec.selectMock s).
Proof.
  unfold generatedImageUrl, Spec.selectMock.
  rewrite <- cleanedPrompt_normalize.
  generalize (cleanedPrompt s) as k. intros k Hk.
  split_key k "happy". split_key k "sad". split_key k "calm".
  split_key k "excited". split_key k "angry". split_key k "inspired".
  split_key k "mixed". split_key k "default".
  assert (G : get mockImageUrls k = VUndefined).
  { unfold get. cbn [own_property mockImageUrls].
    repeat match goal with
           | H : ?l <> k |- _ => rewrite (proj2 (String.eqb_neq l k) H); clear H
           end.
    rewrite bool_decide_eq_false_2 by exact Hk. reflexivity. }
  rewrite G. cbn [or_else truthy].
  assert (A : Spec.assoc k Spec.known_moods = None).
  { clear G Hk. cbn [Spec.assoc Spec.known_moods].
    repeat match goal with
           | |- context [String.eqb k ?l] =>
               destruct (String.eqb_spec k l) as [-> | _]; [vm_compute in *; congruence |]
           end.
    reflexivity. }
  rewrite A. reflexivity.
Qed.

Lemma selectMock_empty_key : generatedImageUrl ", a long day" = VString Spec.default_reference.
Proof. reflexivity. Qed.

Lemma some_char_before (P : ascii -> bool) (c : ascii) (s : string) :
  JsString.some_char P s = false -> JsString.some_char P (Spec.before c s) = false.
Proof.
  induction s as [| d r IH]; [reflexivity |].
  cbn [JsString.some_char Spec.before]. intros H.
  apply orb_false_iff in H as [H1 H2].
  destruct (Ascii.eqb d c); [reflexivity |].
  cbn [JsString.some_char]. now rewrite H1, IH.
Qed.

Lemma cleanedPrompt_no_capital (s : string) :
  JsString.some_char JsString.is_capital (cleanedPrompt s) = false.
Proof.
  rewrite cleanedPrompt_normalize. unfold Spec.normalize.
  rewrite (some_char_trim _ capital_visible).
  apply some_char_before, toLowerCase_no_capital.
Qed.

(** Of the names every object inherits, only two are written without a
    capital letter, so only these two can come out of the normalization. *)
Lemma inherited_keys (s : string) :
  cleanedPrompt s ∈ Object_prototype_names ->
  cleanedPrompt s = "constructor" \/ cleanedPrompt s = "__proto__".
Proof.
  pose proof (cleanedPrompt_no_capital s) as Hk.
  revert Hk. generalize (cleanedPrompt s) as k. intros k Hk.
  unfold Object_prototype_names. rewrite !elem_of_cons, elem_of_nil.
  intros H.
  repeat (destruct H as [-> | H];
          [first [left; reflexivity | right; reflexivity
                 | vm_compute in Hk; discriminate Hk] |]).
  contradiction.
Qed.

Lemma generatedImageUrl_proto :
  generatedImageUrl "__proto__" = VNative "__proto__"
  /\ generatedImageUrl "Constructor, in Abstract style" = VNative "constructor".
Proof. split; reflexivity. Qed.

Lemma assoc_range (k v : string) (l : list (string * string)) :
  Spec.assoc k l = Some v -> v ∈ List.map snd l.
Proof.
  induction l as [| [k' v'] l IH]; [discriminate |].
  cbn [Spec.assoc List.map snd].
  destruct (String.eqb k k').
  - intros [= <-]. apply list_elem_of_here.
  - intros H. apply list_elem_of_further, IH, H.
Qed.

(** The specification's selector only ever gives one of the eight
    references: a keyword's or the default one. *)
Lemma selectMock_range (s : string) :
  Spec.selectMock s ∈ Spec.default_reference :: List.map snd Spec.known_moods.
Proof.
  unfold Spec.selectMock.
  destruct (Spec.assoc (Spec.normalize s) Spec.known_moods) as [v |] eqn:E.
  - apply list_elem_of_further. exact (assoc_range _ _ _ E).
  - apply list_elem_of_here.
Qed.

(** C1, as amended.  For a prompt string that is not blank after trimming,
    if any of the five provider settings is absent (or empty),
    [generateArtFromAPI] waits 3000 ms, performs no external call, and
    returns the placeholder reference the Mock Image Selector chooses (the
    reference of the keyword the prompt normalizes to, the default one
    otherwise), for every prompt whose normalized key is not one of the
    two names every object inherits, ["constructor"] and ["__proto__"]. *)
Theorem mock_when_credentials_missing (w : World) (s : string) :
  present (ART_API_URL w) = false \/ present (ART_API_TOKEN w) = false
  \/ present (cloud_name w) = false \/ present (api_key w) = false
  \/ present (api_secret w) = false ->
  JsString.trim s <> "" ->
  cleanedPrompt s <> "constructor" ->
  cleanedPrompt s <> "__proto__" ->
  generateArtFromAPI w (VString s)
  = ([ESetTimeout 3000], Return (VString (Spec.selectMock s)))
  /\ List.existsb is_external_call (generateArtFromAPI w (VString s)).1 = false
  /\ Spec.selectMock s ∈ Spec.default_reference :: List.map snd Spec.known_moods.
Proof.
  intros Hmiss Hs Hc Hp.
  assert (K : cleanedPrompt s ∉ Object_prototype_names).
  { intros Hin. destruct (inherited_keys s Hin); contradiction. }
  assert (E : generateArtFromAPI w (VString s)
              = ([ESetTimeout 3000], Return (VString (Spec.selectMock s)))).
  { unfold generateArtFromAPI. rewrite (guard_passes s Hs).
    rewrite (credentials_missing_intro w Hmiss). cbn [chars].
    now rewrite (generatedImageUrl_selectMock s K). }
  split; [exact E |]. split; [rewrite E; reflexivity | apply selectMock_range].
Qed.

Lemma mock_when_credentials_missing_witness :
  present (ART_API_URL Examples.mock_world) = false
  /\ JsString.trim "Sad" <> ""
  /\ cleanedPrompt "Sad" <> "constructor"
  /\ cleanedPrompt "Sad" <> "__proto__"
  /\ generateArtFromAPI Examples.mock_world (VString "Sad")
     = ([ESetTimeout 3000],
        Return (VString "https://placehold.co/600x450/87CEEB/FFFFFF?text=Sad+Art")).
Proof.
  assert (H : JsString.trim "Sad" <> "") by (cbv; discriminate).
  assert (Hc : cleanedPrompt "Sad" <> "constructor") by (vm_compute; discriminate).
  assert (Hp : cleanedPrompt "Sad" <> "__proto__") by (vm_compute; discriminate).
  split; [reflexivity |]. split; [exact H |]. split; [exact Hc |]. split; [exact Hp |].
  exact (proj1 (mock_when_credentials_missing Examples.mock_world "Sad"
                  (or_introl eq_refl) H Hc Hp)).
Defined.

(** C1, as stated, fails on a blank prompt string: with no provider
    configured, [generateArtFromAPI] throws instead of returning a mock
    reference, and does not wait. *)
Lemma blank_prompt_gets_no_mock :
  present (ART_API_URL Examples.mock_world) = false
  /\ generateArtFromAPI Examples.mock_world (VString "   ")
     = ([], Throw (Error msg_invalid_prompt))
  /\ ~ (exists v, generateArtFromAPI Examples.mock_world (VString "   ")
                  = ([ESetTimeout 3000], Return v)).
Proof.
  split; [reflexivity |]. split; [reflexivity |].
  intros [v H]. vm_compute in H. discriminate H.
Qed.

(** C5.  The lookup [mockImageUrls[cleanedPrompt]] also finds what every
    object inherits from [Object.prototype]: for the prompt ["constructor"]
    the mock branch returns the built-in [Object] function, not the default
    placeholder reference the selector is specified to give. *)
Theorem mock_lookup_reaches_prototype :
  generateArtFromAPI Examples.mock_world (VString "constructor")
  = ([ESetTimeout 3000], Return (VNative "constructor"))
  /\ Spec.selectMock "constructor" = Spec.default_reference
  /\ generatedImageUrl "constructor" <> VString (Spec.selectMock "constructor").
Proof.
  split; [reflexivity |]. split; [reflexivity |].
  vm_compute. discriminate.
Qed.

(** ** Prompt composition *)

(** Whenever a mood or a diary text is present, the code composes exactly
    what the specification's rules give. *)
Lemma artPrompt_compose (b : ArtBody) :
  present (b_mood b) = true \/ present (b_prompt b) = true ->
  artPrompt b = Some (Spec.compose b).
Proof.
  destruct b as [m p st cs].
  unfold artPrompt, Spec.compose, Spec.start, Spec.style_suffix, Spec.colors_suffix.
  cbn [b_mood b_prompt b_style b_colors].
  intros H.
  destruct m as [m |], p as [p |], st as [st |], cs as [[| c cs] |];
    cbn in *;
    repeat match goal with
           | |- context [String.eqb ?x ""] => destruct (String.eqb x "") eqn:?
           end;
    cbn in *;
    try (destruct H; discriminate);
    repeat rewrite append_assoc; repeat rewrite append_empty_r;
    reflexivity.
Qed.

Lemma artPrompt_happy_abstract :
  artPrompt Examples.happy_abstract
  = Some "Happy, in Abstract style, with colors red, blue".
Proof. reflexivity. Qed.

(** C4.  With neither a mood nor a diary text, the code starts from
    [undefined] and appends to it: a request that carries only a style
    composes ["undefined, in Abstract style"], where the specification's
    rules give [", in Abstract style"]. *)
Theorem artPrompt_style_only :
  artPrompt Examples.style_only = Some "undefined, in Abstract style"
  /\ Spec.compose Examples.style_only = ", in Abstract style"
  /\ artPrompt Examples.style_only <> Some (Spec.compose Examples.style_only).
Proof.
  split; [reflexivity |]. split; [reflexivity |].
  vm_compute. discriminate.
Qed.

(** ** Failures on the real path *)

Section Classification.

Variable error : JsError.

Lemma rethrow_401 :
  error_response_status error = Some 401%Z -> rethrow error = Error msg_auth_failed.
Proof. intros H. unfold rethrow. rewrite H. reflexivity. Qed.

Lemma rethrow_429 :
  error_response_status error = Some 429%Z -> rethrow error = Error msg_rate_limit.
Proof. intros H. unfold rethrow. rewrite H. reflexivity. Qed.

Lemma rethrow_connect :
  error_response_status error <> Some 401%Z ->
  error_response_status error <> Some 429%Z ->
  error_code error = Some "ECONNREFUSED" \/ error_code error = Some "ENOTFOUND" ->
  rethrow error = Error msg_connect.
Proof.
  intros H1 H2 Hc. unfold rethrow.
  rewrite !bool_decide_eq_false_2 by assumption.
  destruct Hc as [-> | ->]; reflexivity.
Qed.

Lemma rethrow_other :
  error_response_status error <> Some 401%Z ->
  error_response_status error <> Some 429%Z ->
  error_code error <> Some "ECONNREFUSED" ->
  error_code error <> Some "ENOTFOUND" ->
  rethrow error = Error msg_generic.
Proof.
  intros H1 H2 H3 H4. unfold rethrow.
  rewrite !bool_decide_eq_false_2 by assumption. reflexivity.
Qed.

End Classification.

Lemma classification_messages_distinct :
  NoDup [msg_auth_failed; msg_rate_limit; msg_connect; msg_generic].
Proof. compute_done. Qed.

(** C2.  On the real path (a valid prompt, every provider setting present),
    a failure of the generation call or of the upload call makes
    [generateArtFromAPI] throw one error and stop: the generation call has
    been issued once and the upload call at most once.  The error is the
    authentication failure for a response with status 401, the rate-limit
    failure for status 429, the connectivity failure for the codes
    ECONNREFUSED and ENOTFOUND (no 401 or 429 response being there), and the
    generic failure otherwise; the four messages differ. *)
Theorem real_path_failure_classified
    (w : World) (s : string) (error : JsError) (io : list event) :
  JsString.trim s <> "" ->
  credentials_missing w = false ->
  real_path_fails w s error io ->
  generateArtFromAPI w (VString s) = (io, Throw (rethrow error))
  /\ length (List.filter is_post io) = 1
  /\ length (List.filter is_upload io) <= 1
  /\ (error_response_status error = Some 401%Z -> rethrow error = Error msg_auth_failed)
  /\ (error_response_status error = Some 429%Z -> rethrow error = Error msg_rate_limit)
  /\ (error_response_status error <> Some 401%Z ->
      error_response_status error <> Some 429%Z ->
      error_code error = Some "ECONNREFUSED" \/ error_code error = Some "ENOTFOUND" ->
      rethrow error = Error msg_connect)
  /\ (error_response_status error <> Some 401%Z ->
      error_response_status error <> Some 429%Z ->
      error_code error <> Some "ECONNREFUSED" ->
      error_code error <> Some "ENOTFOUND" ->
      rethrow error = Error msg_generic)
  /\ NoDup [msg_auth_failed; msg_rate_limit; msg_connect; msg_generic].
Proof.
  intros Hs Hc Hf.
  assert (G : forall k, (if negb (truthy (VString s))
                            || negb (String.eqb (typeof (VString s)) "string")
                            || String.eqb (JsString.trim (chars (VString s))) ""
                         then ([], Throw (Error msg_invalid_prompt))
                         else k) = k :> list event * outcome value).
  { intros k. now rewrite (guard_passes s Hs). }
  split.
  { unfold generateArtFromAPI. rewrite G, Hc. cbn [chars].
    destruct Hf as [e He | r e Hr He].
    - rewrite He. reflexivity.
    - rewrite Hr, He. reflexivity. }
  split; [destruct Hf; reflexivity |].
  split; [destruct Hf; cbn; lia |].
  split; [apply rethrow_401 |].
  split; [apply rethrow_429 |].
  split; [apply rethrow_connect |].
  split; [apply rethrow_other |].
  apply classification_messages_distinct.
Qed.

Lemma real_path_failure_classified_witness :
  let w := Examples.failing_world (Some 401%Z) None in
  let error := mkJsError (Some 401%Z) None in
  let io := [EAxiosPost "https://api.example/models/art" "Happy" "Bearer hf_token"] in
  JsString.trim "Happy" <> ""
  /\ credentials_missing w = false
  /\ real_path_fails w "Happy" error io
  /\ generateArtFromAPI w (VString "Happy") = (io, Throw (Error msg_auth_failed)).
Proof.
  intros w error io.
  assert (H1 : JsString.trim "Happy" <> "") by (cbv; discriminate).
  assert (H2 : credentials_missing w = false) by reflexivity.
  assert (H3 : real_path_fails w "Happy" error io).
  { apply (generation_call_fails w "Happy" error). reflexivity. }
  split; [exact H1 |]. split; [exact H2 |]. split; [exact H3 |].
  exact (proj1 (real_path_failure_classified w "Happy" error io H1 H2 H3)).
Defined.

(** An upload that fails after a successful generation call is classified
    the same way, after one call of each kind. *)
Lemma upload_failure_after_one_call_each
    (w : World) (s : string) (response : AxiosResponse) (error : JsError) :
  JsString.trim s <> "" ->
  credentials_missing w = false ->
  axios_post w (post_url w) s (post_authorization w) = inl response ->
  cloudinary_upload w (dataURI response) upload_folder (upload_tags s) = inr error ->
  generateArtFromAPI w (VString s)
  = ([EAxiosPost (post_url w) s (post_authorization w);
      ECloudinaryUpload (dataURI response) upload_folder (upload_tags s)],
     Throw (rethrow error)).
Proof.
  intros Hs Hc Hr He.
  unfold generateArtFromAPI. rewrite (guard_passes s Hs), Hc. cbn [chars].
  rewrite Hr, He. reflexivity.
Qed.

(** ** The two token checks *)

Lemma optionalAuth_no_user (w : World) (token : option string) :
  present token = false \/ (exists name, jwt_verify w (template token) = VerifyThrows name) ->
  optionalAuth w token = None.
Proof.
  unfold optionalAuth. intros [H | [name H]].
  - now rewrite H.
  - destruct (present token); [now rewrite H | reflexivity].
Qed.

Lemma optionalAuth_absent_token (w : World) : optionalAuth w None = None.
Proof. reflexivity. Qed.

(** The routes read the token through [optionalAuth] only. *)
Lemma handle_same_user (w : World) (t t' : option string) (r : Request)
    (db : gmap ObjectId Art.doc) :
  optionalAuth w t = optionalAuth w t' ->
  handle w (with_token t r) db = handle w (with_token t' r) db.
Proof.
  intros H. destruct r; cbn [handle with_token];
    unfold post_art, get_history, post_vote, get_evolution, post_collaborate;
    rewrite ?H; reflexivity.
Qed.

(** No art route ever answers 401. *)
Lemma handle_never_401 (w : World) (r : Request) (db : gmap ObjectId Art.doc) :
  status (handle w r db).2 <> 401%Z.
Proof.
  destruct r as [token b | token | token id | token m | token b]; cbn [handle].
  - unfold post_art.
    destruct (generateArtFromAPI w (of_field (artPrompt b))) as [io [u | e]].
    + destruct (Art.save_new w _ db) as [db' [[id d] | e]];
        [cbn; discriminate | destruct e; cbn; discriminate].
    + destruct e; cbn; discriminate.
  - cbn. discriminate.
  - unfold post_vote.
    destruct (Art.findById w db id) as [[[oid d] |] | e]; cbn; discriminate.
  - cbn. discriminate.
  - unfold post_collaborate.
    destruct (negb (present (b_mood1 b)) || negb (present (b_mood2 b)));
      [cbn; discriminate |].
    destruct (generateArtFromAPI w (VString (collaborate_prompt b))) as [io [u | e]];
      [| cbn; discriminate].
    destruct (Art.save_new w _ db) as [db' [[id d] | e]]; cbn; discriminate.
Qed.

(** Any other error of the verification is not answered 401: the
    middleware answers 500. *)
Lemma auth_other_verification_error (w : World) (token : option string) (name : string) :
  present token = true ->
  jwt_verify w (template token) = VerifyThrows name ->
  name <> "TokenExpiredError" -> name <> "JsonWebTokenError" ->
  Auth.auth w token = Auth.Reply 500 Auth.msg_server_error.
Proof.
  intros Hp Hv H1 H2. unfold Auth.auth. rewrite Hp, Hv. cbn [negb].
  rewrite (proj2 (String.eqb_neq _ _) H1), (proj2 (String.eqb_neq _ _) H2).
  reflexivity.
Qed.

(** C9, as amended.  A token that is missing, or that [jwt.verify] refuses
    with whatever error, does not stop a route behind [optionalAuth]: no
    user is attached, the route answers exactly as it answers the same
    request sent without a token, and the answer is not a 401.  The [auth]
    middleware answers 401 to a missing token, to an expired token and to a
    token refused as [JsonWebTokenError], with three different messages,
    and 500 to a token refused with any other error. *)
Theorem optional_auth_degrades_required_auth_rejects
    (w : World) (token : option string) :
  present token = false
  \/ (exists name, jwt_verify w (template token) = VerifyThrows name) ->
  optionalAuth w token = None
  /\ (forall r db,
        handle w (with_token token r) db = handle w (with_token None r) db
        /\ status (handle w (with_token token r) db).2 <> 401%Z)
  /\ (present token = false -> Auth.auth w token = Auth.Reply 401 Auth.msg_no_token)
  /\ (forall name,
        present token = true ->
        jwt_verify w (template token) = VerifyThrows name ->
        (name = "TokenExpiredError" ->
         Auth.auth w token = Auth.Reply 401 Auth.msg_expired)
        /\ (name = "JsonWebTokenError" ->
            Auth.auth w token = Auth.Reply 401 Auth.msg_invalid)
        /\ (name <> "TokenExpiredError" -> name <> "JsonWebTokenError" ->
            Auth.auth w token = Auth.Reply 500 Auth.msg_server_error))
  /\ NoDup [Auth.msg_no_token; Auth.msg_expired; Auth.msg_invalid].
Proof.
  intros H.
  assert (U : optionalAuth w token = None) by exact (optionalAuth_no_user w token H).
  split; [exact U |].
  split.
  { intros r db. split; [| apply handle_never_401].
    apply handle_same_user. now rewrite U. }
  split.
  { intros Hp. unfold Auth.auth. now rewrite Hp. }
  split; [| compute_done].
  intros name Hp Hv. split; [| split].
  - intros ->. unfold Auth.auth. now rewrite Hp, Hv.
  - intros ->. unfold Auth.auth. now rewrite Hp, Hv.
  - now apply auth_other_verification_error.
Qed.

Lemma optional_auth_degrades_required_auth_rejects_witness :
  (exists name, jwt_verify Examples.mock_world (template (Some "not.a.token"))
                = VerifyThrows name)
  /\ optionalAuth Examples.mock_world (Some "not.a.token") = None
  /\ Auth.auth Examples.mock_world (Some "not.a.token") = Auth.Reply 401 Auth.msg_invalid.
Proof.
  assert (H : exists name, jwt_verify Examples.mock_world (template (Some "not.a.token"))
                           = VerifyThrows name).
  { exists "JsonWebTokenError". reflexivity. }
  split; [exact H |].
  destruct (optional_auth_degrades_required_auth_rejects
              Examples.mock_world (Some "not.a.token") (or_intror H))
    as (U & _ & _ & A & _).
  split; [exact U |].
  exact (proj1 (proj2 (A "JsonWebTokenError" eq_refl eq_refl)) eq_refl).
Defined.

(** C9, as stated, fails on the required path for a token that
    [jwt.verify] refuses with an error other than the two the middleware
    names: a token that is not yet valid is answered 500, not 401. *)
Lemma not_yet_valid_token_gets_500 :
  present (Some "early.token") = true
  /\ jwt_verify Scenarios.early_world (template (Some "early.token"))
     = VerifyThrows "NotBeforeError"
  /\ Auth.auth Scenarios.early_world (Some "early.token")
     = Auth.Reply 500 Auth.msg_server_error
  /\ ~ (exists msg, Auth.auth Scenarios.early_world (Some "early.token")
                    = Auth.Reply 401 msg).
Proof.
  split; [reflexivity |]. split; [reflexivity |]. split; [reflexivity |].
  intros [msg H]. vm_compute in H. discriminate H.
Qed.

Lemma auth_valid_token (w : World) (token : option string) (user : option ObjectId) :
  present token = true ->
  jwt_verify w (template token) = Decoded user ->
  Auth.auth w token = Auth.Next user /\ optionalAuth w token = user.
Proof.
  intros Hp Hv. unfold Auth.auth, optionalAuth. now rewrite Hp, Hv.
Qed.

(** ** Creating a document *)

Lemma validate_mood_ok (m : string) :
  Art.validate_mood m = [] -> m ∈ Art.mood_enum.
Proof.
  unfold Art.validate_mood.
  destruct (String.eqb m ""); [discriminate |].
  destruct (bool_decide (m ∈ Art.mood_enum)) eqn:E; [| discriminate].
  intros _. now apply bool_decide_eq_true in E.
Qed.

Lemma validate_mood_bad (m : string) :
  m ∉ Art.mood_enum -> Art.validate_mood m <> [].
Proof. intros H E. apply H. now apply validate_mood_ok. Qed.

(** What a successful [create] says about its document. *)
Lemma create_Return (w : World) (i : Art.init) (d : Art.doc) :
  Art.create w i = Return d ->
  Art.mood d = JsString.trim (Art.init_mood i)
  /\ Art.mood d ∈ Art.mood_enum
  /\ Art.castString w (Art.init_imageUrl i) = inl (Some (Art.imageUrl d))
  /\ Art.userId d = Art.init_userId i
  /\ Art.votes d = 0%Z.
Proof.
  unfold Art.create.
  destruct (Art.validate_mood (JsString.trim (Art.init_mood i))) as [| e1 l1] eqn:Em;
    destruct (Art.castString w (Art.init_imageUrl i)) as [[u |] | m];
    cbn [Art.cast_error_imageUrl Art.validate_imageUrl app]; try discriminate.
  destruct (String.eqb u ""); [discriminate |].
  intros [= <-]. cbn.
  repeat split; auto using validate_mood_ok.
Qed.

Lemma create_bad_mood (w : World) (i : Art.init) :
  JsString.trim (Art.init_mood i) ∉ Art.mood_enum ->
  exists errs, Art.create w i = Throw (ValidationError errs).
Proof.
  intros H. apply validate_mood_bad in H. unfold Art.create.
  destruct (Art.validate_mood (JsString.trim (Art.init_mood i))) as [| e1 l1];
    [contradiction |].
  destruct (Art.cast_error_imageUrl (Art.castString w (Art.init_imageUrl i)));
    cbn [app]; eauto.
Qed.

(** [save_new] either leaves the collection alone and throws, or inserts
    the created document under an id that was free. *)
Lemma save_new_cases (w : World) (i : Art.init) (db : gmap ObjectId Art.doc) :
  (exists e, Art.save_new w i db = (db, Throw e))
  \/ (exists d, Art.create w i = Return d
               /\ db !! new_ObjectId w = None
               /\ Art.save_new w i db
                  = (<[new_ObjectId w := d]> db, Return (new_ObjectId w, d))).
Proof.
  unfold Art.save_new.
  destruct (Art.create w i) as [d | e]; [| left; eauto].
  destruct (db !! new_ObjectId w) eqn:E; [left; eauto |].
  right. exists d. auto.
Qed.

Lemma catch_art_status (err : exn) : status (catch_art err) <> 201%Z.
Proof. destruct err; cbn; discriminate. Qed.

Lemma catch_collaborate_status (err : exn) : status (catch_collaborate err) <> 201%Z.
Proof. cbn. discriminate. Qed.

(** The two outcomes of [POST /api/art]. *)
Lemma post_art_cases (w : World) (token : option string) (b : ArtBody)
    (db : gmap ObjectId Art.doc) :
  ((post_art w token b db).1.1 = db
   /\ status (post_art w token b db).2 <> 201%Z
   /\ (post_art w token b db).1.2 = (generateArtFromAPI w (of_field (artPrompt b))).1)
  \/ (exists u d,
        generateArtFromAPI w (of_field (artPrompt b)) = ((post_art w token b db).1.2, Return u)
        /\ Art.create w (newArt (optionalAuth w token) b u) = Return d
        /\ db !! new_ObjectId w = None
        /\ post_art w token b db
           = (<[new_ObjectId w := d]> db,
              (generateArtFromAPI w (of_field (artPrompt b))).1,
              mkResponse 201 (ArtJson (new_ObjectId w) d))).
Proof.
  unfold post_art.
  destruct (generateArtFromAPI w (of_field (artPrompt b))) as [io [u | e]].
  - destruct (save_new_cases w (newArt (optionalAuth w token) b u) db)
      as [[e He] | [d (Hc & Hn & Hs)]]; rewrite ?He, ?Hs.
    + left. cbn. auto using catch_art_status.
    + right. exists u, d. cbn. auto.
  - left. cbn. auto using catch_art_status.
Qed.

(** ** The collaboration route never stores anything *)

Lemma mood_enum_no_ampersand (m : string) :
  m ∈ Art.mood_enum -> JsString.some_char JsString.is_ampersand m = false.
Proof.
  unfold Art.mood_enum. rewrite !elem_of_cons, elem_of_nil.
  intros H. repeat (destruct H as [-> | H]; [reflexivity |]). contradiction.
Qed.

Lemma collaborate_mood_not_in_enum (b : CollaborateBody) :
  JsString.trim (collaborate_mood b) ∉ Art.mood_enum.
Proof.
  intros H. apply mood_enum_no_ampersand in H.
  rewrite (some_char_trim _ ampersand_visible) in H.
  unfold collaborate_mood in H. rewrite !some_char_append in H.
  cbn in H. rewrite orb_true_r in H. discriminate.
Qed.

(** Whatever the two moods are, the mood the route builds fails the schema's
    [enum], so the route stores nothing and never answers 201. *)
Lemma collaborate_never_persists (w : World) (token : option string)
    (b : CollaborateBody) (db : gmap ObjectId Art.doc) :
  (post_collaborate w token b db).1.1 = db
  /\ status (post_collaborate w token b db).2 <> 201%Z.
Proof.
  unfold post_collaborate.
  destruct (negb (present (b_mood1 b)) || negb (present (b_mood2 b)));
    [cbn; split; [reflexivity | discriminate] |].
  destruct (generateArtFromAPI w (VString (collaborate_prompt b))) as [io [u | e]];
    [| cbn; split; [reflexivity | discriminate]].
  unfold Art.save_new.
  match goal with
  | |- context [Art.create w ?i] =>
      destruct (create_bad_mood w i (collaborate_mood_not_in_enum b)) as [errs ->]
  end.
  cbn. split; [reflexivity | discriminate].
Qed.

Lemma collaborate_happy_and_sad :
  (post_collaborate Examples.mock_world None Examples.happy_and_sad ∅).2
  = mkResponse 500
      (Msg ("Art validation failed: mood: " ++ Art.mood_enum_message)).
Proof. reflexivity. Qed.

(** ** Nothing is stored without an image *)

(** C6.  For both creating routes: if [generateArtFromAPI] throws, the
    collection is left as it was and the answer is not 201; and when a route
    changes the collection, [generateArtFromAPI] has returned, and the
    change is the insertion, under a free id, of one document whose
    [imageUrl] is the returned value. *)
Theorem no_record_without_image
    (w : World) (r : Request) (db : gmap ObjectId Art.doc) (p : value) :
  image_prompt r = Some p ->
  (forall io e,
      generateArtFromAPI w p = (io, Throw e) ->
      (handle w r db).1.1 = db
      /\ (handle w r db).1.2 = io
      /\ status (handle w r db).2 <> 201%Z)
  /\ ((handle w r db).1.1 <> db ->
      exists u d,
        generateArtFromAPI w p = ((handle w r db).1.2, Return u)
        /\ Art.castString w u = inl (Some (Art.imageUrl d))
        /\ db !! new_ObjectId w = None
        /\ (handle w r db).1.1 = <[new_ObjectId w := d]> db).
Proof.
  intros Hp. destruct r as [token b | | | | token b]; try discriminate.
  - injection Hp as <-. cbn [handle]. split.
    + intros io e H. unfold post_art. rewrite H. cbn.
      auto using catch_art_status.
    + intros Hne.
      destruct (post_art_cases w token b db) as [(H & _) | (u & d & Hg & Hc & Hn & Hs)];
        [contradiction |].
      exists u, d. apply create_Return in Hc as (_ & _ & Hu & _).
      repeat split; [exact Hg | exact Hu | exact Hn | now rewrite Hs].
  - cbn [handle]. split.
    + cbn [image_prompt] in Hp.
      destruct (negb (present (b_mood1 b)) || negb (present (b_mood2 b))) eqn:G;
        [discriminate |].
      injection Hp as <-. intros io e H.
      unfold post_collaborate. rewrite G, H. cbn.
      repeat split; discriminate.
    + intros Hne. destruct (collaborate_never_persists w token b db). contradiction.
Qed.

Lemma no_record_without_image_witness :
  let r := PostArt None (mkArtBody None None None None) in
  image_prompt r = Some VUndefined
  /\ generateArtFromAPI Examples.mock_world VUndefined
     = ([], Throw (Error msg_invalid_prompt))
  /\ (handle Examples.mock_world r Examples.one_piece).1.1 = Examples.one_piece.
Proof.
  intros r.
  assert (H1 : image_prompt r = Some VUndefined) by reflexivity.
  assert (H2 : generateArtFromAPI Examples.mock_world VUndefined
               = ([], Throw (Error msg_invalid_prompt))) by reflexivity.
  split; [exact H1 |]. split; [exact H2 |].
  exact (proj1 (proj1 (no_record_without_image Examples.mock_world r
                         Examples.one_piece VUndefined H1) [] _ H2)).
Defined.

(** ** The moods in the collection *)

Lemma add_vote_frame (d : Art.doc) :
  Art.votes (Art.add_vote d) = (Art.votes d + 1)%Z
  /\ Art.userId (Art.add_vote d) = Art.userId d
  /\ Art.mood (Art.add_vote d) = Art.mood d
  /\ Art.imageUrl (Art.add_vote d) = Art.imageUrl d
  /\ Art.prompt (Art.add_vote d) = Art.prompt d
  /\ Art.style (Art.add_vote d) = Art.style d
  /\ Art.colors (Art.add_vote d) = Art.colors d
  /\ Art.collaborators (Art.add_vote d) = Art.collaborators d
  /\ Art.createdAt (Art.add_vote d) = Art.createdAt d.
Proof. repeat split. Qed.

(** The three outcomes of a vote. *)
Lemma post_vote_cases (w : World) (token : option string) (id : string)
    (db : gmap ObjectId Art.doc) :
  (castObjectId w id = None
   /\ post_vote w token id db
      = (db, [], mkResponse 500 (Msg "Server error processing vote.")))
  \/ (exists oid, castObjectId w id = Some oid /\ db !! oid = None
       /\ post_vote w token id db
          = (db, [], mkResponse 404 (Msg "Art piece not found.")))
  \/ (exists oid d, castObjectId w id = Some oid /\ db !! oid = Some d
       /\ post_vote w token id db
          = (<[oid := Art.add_vote d]> db, [],
             mkResponse 200 (ArtJson oid (Art.add_vote d)))).
Proof.
  unfold post_vote, Art.findById.
  destruct (castObjectId w id) as [oid |]; [| left; auto].
  destruct (db !! oid) as [d |] eqn:E; right; [right | left]; eauto.
Qed.

(** What one request does to the documents that are there: each stays
    under its id, with at least as many votes and the same mood; and a
    document that is new has passed the schema. *)
Lemma handle_lookup (w : World) (r : Request) (db : gmap ObjectId Art.doc)
    (id : ObjectId) (d' : Art.doc) :
  (handle w r db).1.1 !! id = Some d' ->
  (exists d, db !! id = Some d /\ (d' = d \/ d' = Art.add_vote d))
  \/ (db !! id = None /\ exists i, Art.create w i = Return d').
Proof.
  destruct r as [token b | token | token vid | token m | token b]; cbn [handle].
  - destruct (post_art_cases w token b db) as [(H & _) | (u & d & _ & Hc & Hn & Hs)].
    + rewrite H. intros E. left. eauto.
    + rewrite Hs. cbn. rewrite lookup_insert. case_decide as K.
      * intros [= <-]. subst id. right. eauto.
      * intros E. left. eauto.
  - cbn. intros E. left. eauto.
  - destruct (post_vote_cases w token vid db)
      as [(_ & ->) | [(oid & _ & _ & ->) | (oid & d & _ & Hd & ->)]]; cbn.
    + intros E. left. eauto.
    + intros E. left. eauto.
    + rewrite lookup_insert. case_decide as K.
      * intros [= <-]. subst id. left. eauto.
      * intros E. left. eauto.
  - cbn. intros E. left. eauto.
  - destruct (collaborate_never_persists w token b db) as [-> _].
    intros E. left. eauto.
Qed.

Lemma handle_keeps (w : World) (r : Request) (db : gmap ObjectId Art.doc)
    (id : ObjectId) (d : Art.doc) :
  db !! id = Some d ->
  (handle w r db).1.1 !! id = Some d
  \/ (handle w r db).1.1 !! id = Some (Art.add_vote d).
Proof.
  intros Hd.
  destruct r as [token b | token | token vid | token m | token b]; cbn [handle].
  - destruct (post_art_cases w token b db) as [(H & _) | (u & d0 & _ & _ & Hn & Hs)].
    + rewrite H. auto.
    + rewrite Hs. cbn. left. rewrite lookup_insert_ne; [exact Hd | congruence].
  - cbn. auto.
  - destruct (post_vote_cases w token vid db)
      as [(_ & ->) | [(oid & _ & _ & ->) | (oid & d0 & _ & Hd0 & ->)]]; cbn; auto.
    destruct (decide (oid = id)) as [-> | K].
    + right. rewrite lookup_insert_eq. congruence.
    + left. now rewrite lookup_insert_ne.
  - cbn. auto.
  - destruct (collaborate_never_persists w token b db) as [-> _]. auto.
Qed.

(** C7.  Every document in a collection the server can reach has a mood
    from the schema's list.  (The collaboration route is covered: it never
    adds a document, see [collaborate_never_persists].) *)
Theorem stored_moods_in_enum (db : gmap ObjectId Art.doc) :
  reachable db ->
  forall id d, db !! id = Some d -> Art.mood d ∈ Art.mood_enum.
Proof.
  induction 1 as [| w r db _ IH]; intros id d' Hd.
  - rewrite lookup_empty in Hd. discriminate.
  - apply handle_lookup in Hd as [(d & Hd & [-> | ->]) | (_ & i & Hc)].
    + eauto.
    + cbn. eauto.
    + now apply create_Return in Hc as (_ & ? & _).
Qed.

Lemma one_piece_lookup : Examples.one_piece !! 1%N = Some Examples.diary_piece.
Proof. vm_compute. reflexivity. Qed.

Lemma one_piece_reachable : reachable Examples.one_piece.
Proof.
  exact (reachable_handle Examples.mock_world (PostArt None Examples.diary_entry) ∅
           reachable_empty).
Qed.

Lemma stored_moods_in_enum_witness :
  reachable Examples.one_piece
  /\ Examples.one_piece !! 1%N = Some Examples.diary_piece
  /\ Art.mood Examples.diary_piece ∈ Art.mood_enum.
Proof.
  split; [exact one_piece_reachable |].
  split; [exact one_piece_lookup |].
  exact (stored_moods_in_enum Examples.one_piece one_piece_reachable 1%N
           Examples.diary_piece one_piece_lookup).
Defined.

(** C10.  When [POST /api/art] answers 201 to a request whose mood is
    absent (or empty), the stored document has the mood ["Mixed"]. *)
Theorem absent_mood_stored_as_Mixed
    (w : World) (token : option string) (b : ArtBody) (db : gmap ObjectId Art.doc) :
  present (b_mood b) = false ->
  status (post_art w token b db).2 = 201%Z ->
  exists id d,
    json (post_art w token b db).2 = ArtJson id d
    /\ (post_art w token b db).1.1 !! id = Some d
    /\ db !! id = None
    /\ Art.mood d = "Mixed".
Proof.
  intros Hm Hs.
  destruct (post_art_cases w token b db) as [(_ & H & _) | (u & d & _ & Hc & Hn & Hp)];
    [contradiction |].
  exists (new_ObjectId w), d. rewrite Hp. cbn.
  apply create_Return in Hc as (Hmood & _).
  cbn in Hmood. rewrite Hm in Hmood.
  repeat split; [apply lookup_insert_eq | exact Hn | exact Hmood].
Qed.

Lemma absent_mood_stored_as_Mixed_witness :
  present (b_mood Examples.diary_entry) = false
  /\ status (post_art Examples.mock_world None Examples.diary_entry ∅).2 = 201%Z
  /\ exists id d,
      json (post_art Examples.mock_world None Examples.diary_entry ∅).2 = ArtJson id d
      /\ (post_art Examples.mock_world None Examples.diary_entry ∅).1.1 !! id = Some d
      /\ (∅ : gmap ObjectId Art.doc) !! id = None
      /\ Art.mood d = "Mixed".
Proof.
  assert (H1 : present (b_mood Examples.diary_entry) = false) by reflexivity.
  assert (H2 : status (post_art Examples.mock_world None Examples.diary_entry ∅).2
               = 201%Z) by reflexivity.
  split; [exact H1 |]. split; [exact H2 |].
  exact (absent_mood_stored_as_Mixed Examples.mock_world None Examples.diary_entry ∅ H1 H2).
Defined.

(** ** Votes *)

(** A vote on a stored document adds one to its counter and changes nothing
    else, in the document or in the rest of the collection. *)
Lemma vote_increments (w : World) (token : option string) (id : string)
    (db : gmap ObjectId Art.doc) (oid : ObjectId) (d : Art.doc) :
  castObjectId w id = Some oid ->
  db !! oid = Some d ->
  post_vote w token id db
  = (<[oid := Art.add_vote d]> db, [], mkResponse 200 (ArtJson oid (Art.add_vote d)))
  /\ Art.votes (Art.add_vote d) = (Art.votes d + 1)%Z
  /\ (forall other, other <> oid ->
        (post_vote w token id db).1.1 !! other = db !! other).
Proof.
  intros Hc Hd.
  assert (E : post_vote w token id db
              = (<[oid := Art.add_vote d]> db, [],
                 mkResponse 200 (ArtJson oid (Art.add_vote d)))).
  { unfold post_vote, Art.findById. now rewrite Hc, Hd. }
  split; [exact E |]. split; [reflexivity |].
  intros other Hne. rewrite E. cbn. now rewrite lookup_insert_ne.
Qed.

(** A vote on a well-formed id under which nothing is stored is answered
    404 and changes nothing. *)
Lemma vote_not_found (w : World) (token : option string) (id : string)
    (db : gmap ObjectId Art.doc) (oid : ObjectId) :
  castObjectId w id = Some oid ->
  db !! oid = None ->
  post_vote w token id db = (db, [], mkResponse 404 (Msg "Art piece not found.")).
Proof.
  intros Hc Hd. unfold post_vote, Art.findById. now rewrite Hc, Hd.
Qed.

(** No request lowers a vote counter. *)
Lemma votes_never_decrease (w : World) (r : Request) (db : gmap ObjectId Art.doc)
    (id : ObjectId) (d : Art.doc) :
  db !! id = Some d ->
  exists d', (handle w r db).1.1 !! id = Some d' /\ (Art.votes d <= Art.votes d')%Z.
Proof.
  intros Hd. destruct (handle_keeps w r db id d Hd) as [H | H].
  - exists d. split; [exact H | lia].
  - exists (Art.add_vote d). split; [exact H | cbn; lia].
Qed.

Lemma votes_monotone_along_requests
    (ws : list (World * Request)) (db : gmap ObjectId Art.doc)
    (id : ObjectId) (d : Art.doc) :
  db !! id = Some d ->
  exists d', foldl (fun db wr => (handle wr.1 wr.2 db).1.1) db ws !! id = Some d'
             /\ (Art.votes d <= Art.votes d')%Z.
Proof.
  revert db d. induction ws as [| [w r] ws IH]; intros db d Hd; cbn [foldl].
  - exists d. split; [exact Hd | lia].
  - destruct (votes_never_decrease w r db id d Hd) as (d1 & H1 & L1).
    destruct (IH _ d1 H1) as (d2 & H2 & L2).
    exists d2. split; [exact H2 | lia].
Qed.

(** X15.  [n] votes on a stored document, one after the other, add exactly
    [n] to its counter. *)
Lemma votes_after_n_votes (w : World) (token : option string) (id : string)
    (oid : ObjectId) (n : nat) (db : gmap ObjectId Art.doc) (d : Art.doc) :
  castObjectId w id = Some oid ->
  db !! oid = Some d ->
  exists d',
    Nat.iter n (fun db => (post_vote w token id db).1.1) db !! oid = Some d'
    /\ Art.votes d' = (Art.votes d + Z.of_nat n)%Z.
Proof.
  intros Hc Hd. induction n as [| n (d1 & H1 & V1)].
  - exists d. split; [exact Hd | cbn; lia].
  - exists (Art.add_vote d1). rewrite Nat.iter_succ.
    destruct (vote_increments w token id _ oid d1 Hc H1) as (E & _ & _).
    rewrite E. cbn [fst]. split; [apply lookup_insert_eq | cbn; lia].
Qed.

(** C8.  An id that no document has, but that is not a well-formed document
    id either, is not answered 404: [findById] throws on it and the route's
    [catch] answers 500.  (The collection is left as it was.) *)
Theorem vote_on_malformed_id :
  castObjectId Examples.mock_world "abc" = None
  /\ post_vote Examples.mock_world None "abc" Examples.one_piece
     = (Examples.one_piece, [], mkResponse 500 (Msg "Server error processing vote."))
  /\ status (post_vote Examples.mock_world None "abc" Examples.one_piece).2 <> 404%Z.
Proof.
  split; [reflexivity |].
  assert (E : post_vote Examples.mock_world None "abc" Examples.one_piece
              = (Examples.one_piece, [],
                 mkResponse 500 (Msg "Server error processing vote."))).
  { destruct (post_vote_cases Examples.mock_world None "abc" Examples.one_piece)
      as [(_ & H) | [(oid & H & _) | (oid & d & H & _)]];
      [exact H | discriminate H | discriminate H]. }
  split; [exact E | rewrite E; cbn; discriminate].
Qed.

(** * Further properties of the art routes *)

(** ** More on strings *)

Lemma trimEnd_cons_visible (c : ascii) (r : string) :
  JsString.is_whitespace c = false ->
  exists t, JsString.trimEnd (String c r) = String c t.
Proof.
  intros Hc. cbn [JsString.trimEnd].
  destruct (JsString.trimEnd r) as [| e t]; [rewrite Hc |]; eauto.
Qed.

Lemma trimStart_fixed (s : string) :
  (forall c r, s = String c r -> JsString.is_whitespace c = false) ->
  JsString.trimStart s = s.
Proof.
  destruct s as [| c r]; [reflexivity |].
  intros H. cbn [JsString.trimStart]. now rewrite (H c r eq_refl).
Qed.

Lemma trimStart_head (s : string) (c : ascii) (r : string) :
  JsString.trimStart s = String c r -> JsString.is_whitespace c = false.
Proof.
  induction s as [| d t IH]; [discriminate |].
  cbn [JsString.trimStart].
  destruct (JsString.is_whitespace d) eqn:Hd; [exact IH |].
  intros [= <- <-]. exact Hd.
Qed.

Lemma trimEnd_idempotent (s : string) :
  JsString.trimEnd (JsString.trimEnd s) = JsString.trimEnd s.
Proof.
  induction s as [| c r IH]; [reflexivity |].
  cbn [JsString.trimEnd].
  destruct (JsString.trimEnd r) as [| e t] eqn:E.
  - destruct (JsString.is_whitespace c) eqn:Hc; [reflexivity |].
    cbn [JsString.trimEnd]. now rewrite Hc.
  - cbn [JsString.trimEnd] in *. now rewrite IH.
Qed.

Lemma trim_head (s : string) (c : ascii) (r : string) :
  JsString.trim s = String c r -> JsString.is_whitespace c = false.
Proof.
  unfold JsString.trim.
  destruct (JsString.trimStart s) as [| d t] eqn:E; [discriminate |].
  pose proof (trimStart_head s d t E) as Hd.
  destruct (trimEnd_cons_visible d t Hd) as [u ->].
  now intros [= <- _].
Qed.

Lemma trim_idempotent (s : string) : JsString.trim (JsString.trim s) = JsString.trim s.
Proof.
  unfold JsString.trim at 1.
  rewrite trimStart_fixed by (intros c r; apply trim_head).
  unfold JsString.trim. apply trimEnd_idempotent.
Qed.

Lemma trim_visible_head (c : ascii) (r : string) :
  JsString.is_whitespace c = false -> JsString.trim (String c r) <> "".
Proof.
  intros Hc. unfold JsString.trim. cbn [JsString.trimStart]. rewrite Hc.
  destruct (trimEnd_cons_visible c r Hc) as [t ->]. discriminate.
Qed.

Lemma toLowerCase_append (a b : string) :
  JsString.toLowerCase (a ++ b) = JsString.toLowerCase a ++ JsString.toLowerCase b.
Proof.
  induction a as [| c r IH]; [reflexivity |].
  rewrite append_cons. cbn [JsString.toLowerCase]. now rewrite IH, append_cons.
Qed.

Lemma before_found (c : ascii) (s : string) :
  JsString.some_char (Ascii.eqb c) (Spec.before c s) = false.
Proof.
  induction s as [| d r IH]; [reflexivity |].
  cbn [Spec.before]. destruct (Ascii.eqb_spec d c) as [-> | Hn]; [reflexivity |].
  cbn [JsString.some_char]. rewrite IH.
  destruct (Ascii.eqb_spec c d) as [-> |]; [contradiction | reflexivity].
Qed.

Lemma comma_visible (c : ascii) :
  JsString.is_whitespace c = true -> Ascii.eqb "," c = false.
Proof.
  intros H. destruct (Ascii.eqb_spec "," c) as [<- |]; [discriminate H | reflexivity].
Qed.

(** ** What [generateArtFromAPI] does and does not do *)

(** X1.  Whatever the prompt and the world, [generateArtFromAPI] performs
    one of four effect sequences: nothing (the prompt was refused), the
    3000 ms wait alone (a provider setting is missing), one generation call
    alone, or one generation call followed by one upload of the image that
    call returned.  It never waits on the real path, never calls out on the
    mock path, and never uploads without a generation call that succeeded. *)
Theorem generate_effects (w : World) (prompt : value) :
  ((generateArtFromAPI w prompt).1 = []
   /\ (generateArtFromAPI w prompt).2 = Throw (Error msg_invalid_prompt))
  \/ ((generateArtFromAPI w prompt).1 = [ESetTimeout 3000]
      /\ credentials_missing w = true)
  \/ (credentials_missing w = false
      /\ exists s, prompt = VString s
         /\ ((exists error,
                axios_post w (post_url w) s (post_authorization w) = inr error
                /\ (generateArtFromAPI w prompt).1
                   = [EAxiosPost (post_url w) s (post_authorization w)])
             \/ (exists response,
                   axios_post w (post_url w) s (post_authorization w) = inl response
                   /\ (generateArtFromAPI w prompt).1
                      = [EAxiosPost (post_url w) s (post_authorization w);
                         ECloudinaryUpload (dataURI response) upload_folder
                           (upload_tags s)]))).
Proof.
  unfold generateArtFromAPI.
  destruct (negb (truthy prompt) || negb (String.eqb (typeof prompt) "string")
            || String.eqb (JsString.trim (chars prompt)) "") eqn:G;
    [left; split; reflexivity |].
  right.
  destruct (credentials_missing w) eqn:C; [left; split; reflexivity |].
  right. split; [reflexivity |].
  destruct prompt as [| | b | | q | s | props | n];
    try (cbn in G; rewrite ?orb_true_r in G; discriminate G).
  exists s. split; [reflexivity |]. cbn [chars].
  destruct (axios_post w (post_url w) s (post_authorization w)) as [response | error].
  - right. exists response. split; [reflexivity |].
    destruct (cloudinary_upload w _ _ _); reflexivity.
  - left. exists error. split; reflexivity.
Qed.

(** X2.  Everything [generateArtFromAPI] throws is a plain [Error] carrying
    one of its five messages; in particular it never throws a validation
    error, so the 400 branch of a route's [catch] is never taken for it. *)
Theorem generate_throws_only_its_errors (w : World) (prompt : value) (e : exn) :
  (generateArtFromAPI w prompt).2 = Throw e ->
  exists m, e = Error m
            /\ m ∈ [msg_invalid_prompt; msg_auth_failed; msg_rate_limit;
                    msg_connect; msg_generic]
            /\ status (catch_art e) = 500%Z
            /\ json (catch_art e) = Msg m.
Proof.
  assert (R : forall error, exists m,
             rethrow error = Error m
             /\ m ∈ [msg_invalid_prompt; msg_auth_failed; msg_rate_limit;
                     msg_connect; msg_generic]
             /\ status (catch_art (rethrow error)) = 500%Z
             /\ json (catch_art (rethrow error)) = Msg m).
  { intros error. unfold rethrow.
    repeat case_bool_decide; cbn [orb];
      eexists; (split; [reflexivity |]); (split; [set_solver | split; reflexivity]). }
  unfold generateArtFromAPI.
  destruct (negb (truthy prompt) || negb (String.eqb (typeof prompt) "string")
            || String.eqb (JsString.trim (chars prompt)) "").
  { cbn. intros [= <-]. eexists. split; [reflexivity |].
    split; [set_solver | split; reflexivity]. }
  destruct (credentials_missing w); [discriminate |].
  destruct (axios_post w _ _ _) as [response | error].
  - destruct (cloudinary_upload w _ _ _) as [url | error]; [discriminate |].
    cbn. intros [= <-]. apply R.
  - cbn. intros [= <-]. apply R.
Qed.

Lemma generate_throws_only_its_errors_witness :
  (generateArtFromAPI Examples.mock_world VNull).2 = Throw (Error msg_invalid_prompt)
  /\ exists m, Error msg_invalid_prompt = Error m
               /\ m ∈ [msg_invalid_prompt; msg_auth_failed; msg_rate_limit;
                       msg_connect; msg_generic]
               /\ status (catch_art (Error msg_invalid_prompt)) = 500%Z
               /\ json (catch_art (Error msg_invalid_prompt)) = Msg m.
Proof.
  assert (H : (generateArtFromAPI Examples.mock_world VNull).2
              = Throw (Error msg_invalid_prompt)) by reflexivity.
  split; [exact H |].
  exact (generate_throws_only_its_errors Examples.mock_world VNull _ H).
Defined.

(** X3.  On the real path, when the generation call and the upload both
    succeed, [generateArtFromAPI] returns the hosting provider's URL after
    exactly these two calls: the prompt posted with the bearer token, and
    the data URI of the returned bytes uploaded to the folder
    ["mood_art_generator"] with the tags [cleanedPrompt] and ["mood_art"]. *)
Theorem real_path_success
    (w : World) (s : string) (response : AxiosResponse) (secure_url : string) :
  JsString.trim s <> "" ->
  credentials_missing w = false ->
  axios_post w (post_url w) s (post_authorization w) = inl response ->
  cloudinary_upload w (dataURI response) "mood_art_generator"
    [cleanedPrompt s; "mood_art"] = inl secure_url ->
  generateArtFromAPI w (VString s)
  = ([EAxiosPost (post_url w) s (post_authorization w);
      ECloudinaryUpload (dataURI response) "mood_art_generator"
        [cleanedPrompt s; "mood_art"]],
     Return (VString secure_url)).
Proof.
  intros Hs Hc Hr Hu.
  unfold generateArtFromAPI. rewrite (guard_passes s Hs), Hc. cbn [chars].
  rewrite Hr. unfold upload_folder, upload_tags. rewrite Hu. reflexivity.
Qed.

Lemma real_path_success_witness :
  JsString.trim "Sad, rain" <> ""
  /\ credentials_missing Scenarios.real_world = false
  /\ generateArtFromAPI Scenarios.real_world (VString "Sad, rain")
     = ([EAxiosPost "https://api.example/models/art" "Sad, rain" "Bearer hf_token";
         ECloudinaryUpload "data:image/png;base64,TWFu" "mood_art_generator"
           ["sad"; "mood_art"]],
        Return (VString "https://res.cloudinary.com/demo/a.png")).
Proof.
  assert (H1 : JsString.trim "Sad, rain" <> "") by (cbv; discriminate).
  assert (H2 : credentials_missing Scenarios.real_world = false) by reflexivity.
  split; [exact H1 |]. split; [exact H2 |].
  exact (real_path_success Scenarios.real_world "Sad, rain"
           (mkAxiosResponse None [Byte.x4d; Byte.x61; Byte.x6e])
           "https://res.cloudinary.com/demo/a.png" H1 H2 eq_refl eq_refl).
Defined.

(** X4.  The key [cleanedPrompt] computes (the mock lookup key and the first
    upload tag) is in normal form: it holds no comma and no capital letter,
    and trimming it again changes nothing. *)
Theorem cleanedPrompt_normal_form (s : string) :
  JsString.some_char (Ascii.eqb ",") (cleanedPrompt s) = false
  /\ JsString.some_char JsString.is_capital (cleanedPrompt s) = false
  /\ JsString.trim (cleanedPrompt s) = cleanedPrompt s.
Proof.
  split; [| split].
  - rewrite cleanedPrompt_normalize. unfold Spec.normalize.
    rewrite (some_char_trim _ comma_visible). apply before_found.
  - apply cleanedPrompt_no_capital.
  - unfold cleanedPrompt. apply trim_idempotent.
Qed.

(** ** The composed prompt and the mock table together *)

Lemma comma_led_append (a b : string) : Shape.comma_led a -> Shape.comma_led b -> Shape.comma_led (a ++ b).
Proof.
  intros [-> | [r ->]] Hb; [exact Hb |].
  right. exists (r ++ b). apply append_cons.
Qed.

Lemma composed_after_mood (b : ArtBody) :
  present (b_mood b) = true ->
  exists rest, artPrompt b = Some (Spec.text (b_mood b) ++ rest) /\ Shape.comma_led rest.
Proof.
  intros Hm. rewrite artPrompt_compose by (left; exact Hm).
  unfold Spec.compose, Spec.start. rewrite Hm.
  assert (T : Shape.comma_led (Spec.style_suffix b ++ Spec.colors_suffix b)).
  { apply comma_led_append.
    - unfold Spec.style_suffix. destruct (present (b_style b)); [right | left]; eauto.
    - unfold Spec.colors_suffix. destruct (b_colors b) as [[| c cs] |]; [left | right | left];
        eauto. }
  destruct (present (b_prompt b)).
  - exists (", " ++ Spec.text (b_prompt b) ++ Spec.style_suffix b ++ Spec.colors_suffix b).
    split; [now rewrite !append_assoc | right; eauto].
  - eauto.
Qed.

(** X5.  With a provider setting missing, a request whose mood is one of the
    seven moods of the schema gets that mood's placeholder, whatever diary
    text, style and colours come with it: the composed prompt starts with
    the mood followed by nothing or a comma, which is all the mock lookup
    reads. *)
Theorem mood_selects_its_placeholder (w : World) (b : ArtBody) (m : string) :
  credentials_missing w = true ->
  b_mood b = Some m ->
  m ∈ Art.mood_enum ->
  exists url,
    Spec.assoc (JsString.toLowerCase m) Spec.known_moods = Some url
    /\ generateArtFromAPI w (of_field (artPrompt b)) = ([ESetTimeout 3000], Return (VString url)).
Proof.
  intros Hc Hb Hm.
  assert (Hp : present (b_mood b) = true).
  { rewrite Hb. unfold Art.mood_enum in Hm. rewrite !elem_of_cons, elem_of_nil in Hm.
    repeat (destruct Hm as [-> | Hm]; [reflexivity |]). contradiction. }
  destruct (composed_after_mood b Hp) as (rest & -> & Hrest).
  rewrite Hb. change (Spec.text (Some m)) with m. cbn [of_field].
  assert (K : forall s, JsString.trim s <> "" ->
              generateArtFromAPI w (VString s)
              = ([ESetTimeout 3000], Return (generatedImageUrl s))).
  { intros s Hs. unfold generateArtFromAPI. now rewrite (guard_passes s Hs), Hc. }
  unfold Art.mood_enum in Hm. rewrite !elem_of_cons, elem_of_nil in Hm.
  repeat (destruct Hm as [-> | Hm];
          [eexists; split; [reflexivity |];
           rewrite K by (rewrite append_cons; apply trim_visible_head; reflexivity);
           f_equal; f_equal;
           destruct Hrest as [-> | [r ->]]; vm_compute; reflexivity |]).
  contradiction.
Qed.

Lemma mood_selects_its_placeholder_witness :
  credentials_missing Examples.mock_world = true
  /\ b_mood Scenarios.sad_rain = Some "Sad"
  /\ ("Sad" ∈ Art.mood_enum)
  /\ exists url,
      Spec.assoc (JsString.toLowerCase "Sad") Spec.known_moods = Some url
      /\ generateArtFromAPI Examples.mock_world (of_field (artPrompt Scenarios.sad_rain))
         = ([ESetTimeout 3000], Return (VString url)).
Proof.
  assert (H3 : "Sad" ∈ Art.mood_enum) by compute_done.
  split; [reflexivity |]. split; [reflexivity |]. split; [exact H3 |].
  exact (mood_selects_its_placeholder Examples.mock_world Scenarios.sad_rain "Sad"
           eq_refl eq_refl H3).
Defined.

(** ** What [POST /api/art] stores *)

Lemma create_fields (w : World) (i : Art.init) (d : Art.doc) :
  Art.create w i = Return d ->
  exists url,
    Art.castString w (Art.init_imageUrl i) = inl (Some url)
    /\ url <> ""
    /\ d = {| Art.userId := Art.init_userId i;
              Art.mood := JsString.trim (Art.init_mood i);
              Art.imageUrl := url;
              Art.prompt := match Art.init_prompt i with
                            | Some p => JsString.trim p
                            | None => ""
                            end;
              Art.style := default "Abstract" (Art.init_style i);
              Art.colors := default [] (Art.init_colors i);
              Art.votes := 0;
              Art.collaborators := default [] (Art.init_collaborators i);
              Art.createdAt := Date_now w |}.
Proof.
  unfold Art.create.
  destruct (Art.validate_mood (JsString.trim (Art.init_mood i))) as [| e1 l1];
    destruct (Art.castString w (Art.init_imageUrl i)) as [[url |] | m] eqn:Eu;
    cbn [Art.cast_error_imageUrl Art.validate_imageUrl app]; try discriminate.
  destruct (String.eqb_spec url "") as [-> | Hu]; [discriminate |].
  intros [= <-]. exists url. auto.
Qed.

(** X6.  When [POST /api/art] answers 201, exactly one document has been
    inserted, under the new id, which was free.  It carries the user of the
    token (none for an anonymous request), the mood (["Mixed"] if absent),
    the trimmed diary text ([""] if absent), the style (["Abstract"] if
    absent), the colours ([[]] if absent), the image returned by
    [generateArtFromAPI], no votes, no collaborators and the current time;
    the answer is that document. *)
Theorem post_art_stores_what_was_sent
    (w : World) (token : option string) (b : ArtBody) (db : gmap ObjectId Art.doc) :
  status (post_art w token b db).2 = 201%Z ->
  exists u url,
    generateArtFromAPI w (of_field (artPrompt b)) = ((post_art w token b db).1.2, Return u)
    /\ Art.castString w u = inl (Some url)
    /\ db !! new_ObjectId w = None
    /\ let d := {| Art.userId := optionalAuth w token;
                   Art.mood := JsString.trim
                                 (if present (b_mood b) then template (b_mood b) else "Mixed");
                   Art.imageUrl := url;
                   Art.prompt := match b_prompt b with
                                 | Some p => JsString.trim p
                                 | None => ""
                                 end;
                   Art.style := default "Abstract" (b_style b);
                   Art.colors := default [] (b_colors b);
                   Art.votes := 0;
                   Art.collaborators := [];
                   Art.createdAt := Date_now w |} in
       (post_art w token b db).1.1 = <[new_ObjectId w := d]> db
       /\ (post_art w token b db).2 = mkResponse 201 (ArtJson (new_ObjectId w) d).
Proof.
  intros Hs.
  destruct (post_art_cases w token b db) as [(_ & H & _) | (u & d & Hg & Hc & Hn & Hp)];
    [contradiction |].
  apply create_fields in Hc as (url & Hu & _ & ->).
  exists u, url. rewrite Hp in Hg |- *. cbn in Hg |- *.
  repeat split; assumption.
Qed.

Lemma post_art_stores_what_was_sent_witness :
  status (post_art Scenarios.real_world (Some "t7") Scenarios.sad_rain Examples.one_piece).2
  = 201%Z
  /\ (post_art Scenarios.real_world (Some "t7") Scenarios.sad_rain Examples.one_piece).1.1
       !! 2%N
     = Some {| Art.userId := Some 7%N; Art.mood := "Sad";
               Art.imageUrl := "https://res.cloudinary.com/demo/a.png";
               Art.prompt := "rain on the window";
               Art.style := "Impressionist"; Art.colors := ["grey"; "blue"];
               Art.votes := 0; Art.collaborators := [];
               Art.createdAt := 1700000000500 |}.
Proof.
  assert (H : status (post_art Scenarios.real_world (Some "t7") Scenarios.sad_rain
                        Examples.one_piece).2 = 201%Z) by reflexivity.
  split; [exact H |].
  destruct (post_art_stores_what_was_sent Scenarios.real_world (Some "t7")
              Scenarios.sad_rain Examples.one_piece H)
    as (u & url & Hg & Hu & _ & Hd & _).
  rewrite Hd. rewrite lookup_insert_eq.
  vm_compute in Hg. injection Hg as <-. vm_compute in Hu. injection Hu as <-.
  reflexivity.
Defined.

Lemma join_one (sep x : string) : JsString.join sep [x] = x.
Proof. reflexivity. Qed.

Lemma generate_throws_Error (w : World) (prompt : value) (e : exn) :
  (generateArtFromAPI w prompt).2 = Throw e -> exists m, e = Error m.
Proof.
  unfold generateArtFromAPI, rethrow.
  destruct (negb (truthy prompt) || negb (String.eqb (typeof prompt) "string")
            || String.eqb (JsString.trim (chars prompt)) "");
    [cbn; intros [= <-]; eauto |].
  destruct (credentials_missing w); [discriminate |].
  destruct (axios_post w _ _ _) as [response | error].
  - destruct (cloudinary_upload w _ _ _) as [url | error]; [discriminate |].
    cbn. intros [= <-]. repeat case_bool_decide; cbn [orb]; eauto.
  - cbn. intros [= <-]. repeat case_bool_decide; cbn [orb]; eauto.
Qed.

(** X7.  The mood is checked only when the document is saved, after the
    image has been generated: a request with a non-blank mood outside the
    schema's list still runs [generateArtFromAPI] with all its effects, and
    nothing is stored.  If generation throws, the answer is 500.  If it
    returns, the answer is 400 and its message holds the schema's enum
    message: alone when generation returned a non-empty string, after the
    cast error when the returned value cannot be cast to a string, and
    before "Image URL is required" when the returned value is empty. *)
Theorem post_art_checks_mood_after_generation
    (w : World) (token : option string) (b : ArtBody) (db : gmap ObjectId Art.doc) :
  present (b_mood b) = true ->
  JsString.trim (template (b_mood b)) <> "" ->
  JsString.trim (template (b_mood b)) ∉ Art.mood_enum ->
  (post_art w token b db).1.1 = db
  /\ (post_art w token b db).1.2 = (generateArtFromAPI w (of_field (artPrompt b))).1
  /\ (forall e,
        (generateArtFromAPI w (of_field (artPrompt b))).2 = Throw e ->
        status (post_art w token b db).2 = 500%Z)
  /\ (forall u,
        (generateArtFromAPI w (of_field (artPrompt b))).2 = Return u ->
        (post_art w token b db).2
        = mkResponse 400
            (Msg (JsString.join ", "
                    (List.map snd
                       (Art.cast_error_imageUrl (Art.castString w u)
                        ++ [("mood", Art.mood_enum_message)]
                        ++ Art.validate_imageUrl (Art.castString w u))))))
  /\ (forall url,
        (generateArtFromAPI w (of_field (artPrompt b))).2 = Return (VString url) ->
        url <> "" ->
        (post_art w token b db).2 = mkResponse 400 (Msg Art.mood_enum_message)).
Proof.
  intros Hp Hne Hm.
  assert (V : Art.validate_mood (JsString.trim (template (b_mood b)))
              = [("mood", Art.mood_enum_message)]).
  { unfold Art.validate_mood. rewrite (eqb_empty_false _ Hne).
    now rewrite bool_decide_eq_false_2 by exact Hm. }
  assert (R : forall io u,
             generateArtFromAPI w (of_field (artPrompt b)) = (io, Return u) ->
             post_art w token b db
             = (db, io,
                mkResponse 400
                  (Msg (JsString.join ", "
                          (List.map snd
                             (Art.cast_error_imageUrl (Art.castString w u)
                              ++ [("mood", Art.mood_enum_message)]
                              ++ Art.validate_imageUrl (Art.castString w u))))))).
  { intros io u Hg. unfold post_art. rewrite Hg.
    unfold Art.save_new, Art.create, newArt.
    cbn [Art.init_mood Art.init_imageUrl]. rewrite Hp, V.
    destruct (Art.cast_error_imageUrl (Art.castString w u)); reflexivity. }
  destruct (generateArtFromAPI w (of_field (artPrompt b))) as [io [u | e]] eqn:Hg.
  - rewrite (R io u eq_refl). cbn [fst snd].
    split; [reflexivity |]. split; [reflexivity |].
    split; [discriminate |].
    split; [intros u' [= <-]; reflexivity |].
    intros url [= ->] Hu. cbn [Art.castString Art.cast_error_imageUrl
                                 Art.validate_imageUrl app].
    now rewrite (eqb_empty_false _ Hu).
  - unfold post_art. rewrite Hg. cbn [fst snd].
    split; [reflexivity |]. split; [reflexivity |].
    split; [| split; [discriminate | discriminate]].
    intros e' [= <-].
    destruct (generate_throws_Error w (of_field (artPrompt b)) e) as [m ->];
      [now rewrite Hg | reflexivity].
Qed.

Lemma post_art_checks_mood_after_generation_witness :
  present (b_mood Scenarios.joyful) = true
  /\ JsString.trim (template (b_mood Scenarios.joyful)) <> ""
  /\ (JsString.trim (template (b_mood Scenarios.joyful)) ∉ Art.mood_enum)
  /\ (post_art Examples.mock_world None Scenarios.joyful Examples.one_piece).1.1
     = Examples.one_piece
  /\ (post_art Examples.mock_world None Scenarios.joyful Examples.one_piece).1.2
     = [ESetTimeout 3000]
  /\ (post_art Examples.mock_world None Scenarios.joyful Examples.one_piece).2
     = mkResponse 400 (Msg Art.mood_enum_message).
Proof.
  assert (H2 : JsString.trim (template (b_mood Scenarios.joyful)) <> "")
    by (vm_compute; discriminate).
  assert (H3 : JsString.trim (template (b_mood Scenarios.joyful)) ∉ Art.mood_enum)
    by compute_done.
  assert (H5 : Spec.default_reference <> "") by (vm_compute; discriminate).
  split; [reflexivity |]. split; [exact H2 |]. split; [exact H3 |].
  destruct (post_art_checks_mood_after_generation Examples.mock_world None
              Scenarios.joyful Examples.one_piece eq_refl H2 H3)
    as (Hdb & Hio & _ & _ & Hmsg).
  split; [exact Hdb |]. split; [exact Hio |].
  exact (Hmsg Spec.default_reference eq_refl H5).
Defined.

(** The mood ["__proto__"] alone, on the mock path: the lookup returns an
    object that cannot be cast, and the answer lists the cast error before
    the enum message. *)
Lemma post_art_proto_mood :
  (post_art Examples.mock_world None
     (mkArtBody (Some "__proto__") None None None) Examples.one_piece).2
  = mkResponse 400 (Msg ("Cast to string failed, " ++ Art.mood_enum_message)).
Proof. reflexivity. Qed.

(** ** The two listing routes *)

Lemma descending_total : Total Art.descending.
Proof. intros a b. unfold Art.descending. lia. Qed.

Lemma ascending_total : Total Art.ascending.
Proof. intros a b. unfold Art.ascending. lia. Qed.

Lemma NoDup_List_filter {A : Type} (f : A -> bool) (l : list A) :
  NoDup l -> NoDup (List.filter f l).
Proof.
  induction 1 as [| x l Hx Hl IH]; cbn [List.filter]; [constructor |].
  destruct (f x); [| exact IH].
  constructor; [| exact IH].
  rewrite list_elem_of_In, filter_In, <- list_elem_of_In. tauto.
Qed.

(** What [find_sorted] returns: the stored documents that pass the filter,
    each once, in the order asked for. *)
Lemma find_sorted_spec (newest_first : bool) (keep : ObjectId * Art.doc -> bool)
    (db : gmap ObjectId Art.doc) :
  (forall id d, (id, d) ∈ Art.find_sorted newest_first keep db
                <-> db !! id = Some d /\ keep (id, d) = true)
  /\ NoDup (Art.find_sorted newest_first keep db)
  /\ Sorted (if newest_first then Art.descending else Art.ascending)
       (Art.find_sorted newest_first keep db).
Proof.
  unfold Art.find_sorted.
  assert (M : forall id d, (id, d) ∈ List.filter keep (map_to_list db)
                           <-> db !! id = Some d /\ keep (id, d) = true).
  { intros id d. rewrite list_elem_of_In, filter_In, <- list_elem_of_In.
    now rewrite elem_of_map_to_list. }
  assert (D : NoDup (List.filter keep (map_to_list db))).
  { apply NoDup_List_filter, NoDup_map_to_list. }
  destruct newest_first.
  - split; [| split].
    + intros id d. now rewrite merge_sort_Permutation.
    + now rewrite merge_sort_Permutation.
    + apply (@Sorted_merge_sort _ Art.descending _ descending_total).
  - split; [| split].
    + intros id d. now rewrite merge_sort_Permutation.
    + now rewrite merge_sort_Permutation.
    + apply (@Sorted_merge_sort _ Art.ascending _ ascending_total).
Qed.

(** X8.  [GET /api/art/history] answers 200 with the documents owned by the
    user of the token, all of them, each once, newest first, and with
    nothing else: never a document of another user or of nobody, and the
    empty list when no user is attached.  It changes nothing and calls
    nothing. *)
Theorem history_lists_own_documents
    (w : World) (token : option string) (db : gmap ObjectId Art.doc) :
  exists l,
    get_history w token db = (db, [], mkResponse 200 (ArtList l))
    /\ (forall id d,
          (id, d) ∈ l
          <-> db !! id = Some d
              /\ is_Some (optionalAuth w token)
              /\ Art.userId d = optionalAuth w token)
    /\ NoDup l
    /\ Sorted Art.descending l.
Proof.
  unfold get_history. destruct (optionalAuth w token) as [u |].
  - eexists. split; [reflexivity |].
    destruct (find_sorted_spec true (same_user (Some u)) db) as (M & D & S).
    split; [| split; assumption].
    intros id d. rewrite M. unfold same_user. cbn [snd].
    rewrite bool_decide_eq_true. split; [intros [? ?] | intros (? & _ & ?)]; eauto.
  - exists []. split; [reflexivity |]. split; [| split; constructor].
    intros id d. split; [intros H; inversion H | intros (_ & [? H] & _); discriminate H].
Qed.

(** X9.  [GET /api/art/evolution/:mood] answers 200 with the documents of
    the token's user whose mood is the mood of the URL once that is
    trimmed (the filter value goes through the setter of the [mood] path),
    all of them, each once, oldest first, and with nothing else; the list
    is empty when no user is attached.  It changes nothing and calls
    nothing. *)
Theorem evolution_lists_own_documents_of_mood
    (w : World) (token : option string) (mood : string) (db : gmap ObjectId Art.doc) :
  exists l,
    get_evolution w token mood db = (db, [], mkResponse 200 (ArtList l))
    /\ (forall id d,
          (id, d) ∈ l
          <-> db !! id = Some d
              /\ is_Some (optionalAuth w token)
              /\ Art.userId d = optionalAuth w token
              /\ Art.mood d = JsString.trim mood)
    /\ NoDup l
    /\ Sorted Art.ascending l.
Proof.
  unfold get_evolution. destruct (optionalAuth w token) as [u |].
  - eexists. split; [reflexivity |].
    match goal with
    | |- context [Art.find_sorted false ?k db] =>
        destruct (find_sorted_spec false k db) as (M & D & S)
    end.
    split; [| split; assumption].
    intros id d. rewrite M. unfold same_user. cbn [snd].
    rewrite andb_true_iff, bool_decide_eq_true, String.eqb_eq.
    split; [intros (? & ? & ?) | intros (? & _ & ? & ?)]; eauto.
  - exists []. split; [reflexivity |]. split; [| split; constructor].
    intros id d. split; [intros H; inversion H | intros (_ & [? H] & _); discriminate H].
Qed.

(** A mood written with surrounding blanks in the URL lists the same
    documents as the mood itself. *)
Lemma evolution_padded_mood (w : World) (token : option string) (mood : string)
    (db : gmap ObjectId Art.doc) :
  get_evolution w token (" " ++ mood ++ " ") db
  = get_evolution w token (JsString.trim mood) db.
Proof.
  unfold get_evolution.
  assert (E : JsString.trim (" " ++ mood ++ " ") = JsString.trim (JsString.trim mood)).
  { rewrite trim_idempotent. unfold JsString.trim.
    rewrite append_cons. cbn [JsString.trimStart JsString.is_whitespace].
    change (JsString.trimStart ("" ++ mood ++ " ")) with (JsString.trimStart (mood ++ " ")).
    assert (S : forall s, JsString.trimEnd (s ++ " ") = JsString.trimEnd s).
    { induction s as [| c r IH]; [reflexivity |].
      rewrite append_cons. cbn [JsString.trimEnd]. now rewrite IH. }
    assert (T : forall s, JsString.trimEnd (JsString.trimStart (s ++ " "))
                          = JsString.trimEnd (JsString.trimStart s)).
    { induction s as [| c r IH]; [reflexivity |].
      rewrite append_cons. cbn [JsString.trimStart].
      destruct (JsString.is_whitespace c); [exact IH |].
      rewrite <- append_cons. apply S. }
    apply T. }
  now rewrite E.
Qed.

(** ** The collaboration route *)

(** X10.  [POST /api/art/collaborate] never stores a document.  Without two
    moods it answers 400 and calls nothing.  With two moods it first runs
    [generateArtFromAPI] on the blended prompt, with all its effects (the
    wait, or the generation call and the upload), and then always answers
    500: for a generation failure, or because the mood it builds fails the
    schema. *)
Theorem collaborate_generates_but_never_stores
    (w : World) (token : option string) (b : CollaborateBody)
    (db : gmap ObjectId Art.doc) :
  (post_collaborate w token b db).1.1 = db
  /\ (present (b_mood1 b) && present (b_mood2 b) = false ->
      post_collaborate w token b db
      = (db, [], mkResponse 400 (Msg "Both moods are required for collaboration.")))
  /\ (present (b_mood1 b) && present (b_mood2 b) = true ->
      (post_collaborate w token b db).1.2
      = (generateArtFromAPI w (VString (collaborate_prompt b))).1
      /\ status (post_collaborate w token b db).2 = 500%Z).
Proof.
  split; [apply collaborate_never_persists |].
  unfold post_collaborate.
  destruct (present (b_mood1 b)), (present (b_mood2 b)); cbn [negb orb andb];
    (split; [intros H; try discriminate H; reflexivity |]);
    intros H; try discriminate H.
  destruct (generateArtFromAPI w (VString (collaborate_prompt b))) as [io [u | e]];
    [| split; reflexivity].
  unfold Art.save_new.
  match goal with
  | |- context [Art.create w ?i] =>
      destruct (create_bad_mood w i (collaborate_mood_not_in_enum b)) as [errs ->]
  end.
  split; reflexivity.
Qed.

Lemma collaborate_generates_but_never_stores_witness :
  present (b_mood1 Examples.happy_and_sad) && present (b_mood2 Examples.happy_and_sad) = true
  /\ (post_collaborate Scenarios.real_world None Examples.happy_and_sad Examples.one_piece).1.2
     = [EAxiosPost "https://api.example/models/art"
          "Collaborative art blending Happy and Sad" "Bearer hf_token";
        ECloudinaryUpload "data:image/png;base64,TWFu" "mood_art_generator"
          ["collaborative art blending happy and sad"; "mood_art"]]
  /\ status (post_collaborate Scenarios.real_world None Examples.happy_and_sad
               Examples.one_piece).2 = 500%Z.
Proof.
  split; [reflexivity |].
  destruct (collaborate_generates_but_never_stores Scenarios.real_world None
              Examples.happy_and_sad Examples.one_piece) as (_ & _ & H).
  destruct (H eq_refl) as [H1 H2].
  split; [rewrite H1; reflexivity | exact H2].
Defined.

(** X11.  The collaborators the route collects never repeat an id: the test
    [partnerUserId !== userId] already leaves out the only possible
    duplicate, so passing the list through a [Set] changes nothing.  The
    list holds the user of the token and the partner found, and nobody
    else. *)
Theorem collaborators_are_distinct (userId partnerUserId : option ObjectId) :
  NoDup (collaborators_of userId partnerUserId)
  /\ unique (collaborators_of userId partnerUserId) = collaborators_of userId partnerUserId
  /\ (forall x, x ∈ collaborators_of userId partnerUserId
                 <-> userId = Some x \/ partnerUserId = Some x).
Proof.
  unfold collaborators_of.
  destruct userId as [u |], partnerUserId as [p |]; cbn [app];
    try case_bool_decide; cbn [app unique List.filter].
  - assert (Hne : u <> p) by congruence.
    rewrite (proj2 (N.eqb_neq u p) Hne). cbn [negb].
    split; [| split; [reflexivity |]].
    + apply NoDup_cons. split; [| apply NoDup_singleton].
      rewrite list_elem_of_singleton. exact Hne.
    + intros x. rewrite !elem_of_cons, elem_of_nil.
      split; [intros [-> | [-> | []]]; auto | intros [[= ->] | [= ->]]; auto].
  - assert (u = p) by (destruct (decide (u = p)); congruence). subst p.
    split; [apply NoDup_singleton | split; [reflexivity |]].
    intros x. rewrite list_elem_of_singleton.
    split; [intros ->; auto | intros [[= ->] | [= ->]]; reflexivity].
  - split; [apply NoDup_singleton | split; [reflexivity |]].
    intros x. rewrite list_elem_of_singleton.
    split; [intros ->; auto | intros [[= ->] | [=]]; reflexivity].
  - split; [apply NoDup_singleton | split; [reflexivity |]].
    intros x. rewrite list_elem_of_singleton.
    split; [intros ->; auto | intros [[=] | [= ->]]; reflexivity].
  - discriminate.
  - split; [apply NoDup_nil_2 | split; [reflexivity |]].
    intros x. rewrite elem_of_nil.
    split; [intros [] | intros [[=] | [=]]].
Qed.

(** ** What the collection keeps *)

Lemma handle_new_document (w : World) (r : Request) (db : gmap ObjectId Art.doc)
    (id : ObjectId) (d : Art.doc) :
  db !! id = None ->
  (handle w r db).1.1 !! id = Some d ->
  exists token b u, r = PostArt token b
                    /\ Art.create w (newArt (optionalAuth w token) b u) = Return d.
Proof.
  intros Hn.
  destruct r as [token b | token | token vid | token m | token b]; cbn [handle].
  - destruct (post_art_cases w token b db) as [(H & _) | (u & d0 & _ & Hc & _ & Hs)].
    + rewrite H. congruence.
    + rewrite Hs. cbn. rewrite lookup_insert. case_decide as K; [| congruence].
      intros [= <-]. eauto.
  - cbn. congruence.
  - destruct (post_vote_cases w token vid db)
      as [(_ & ->) | [(oid & _ & _ & ->) | (oid & d0 & _ & Hd0 & ->)]]; cbn;
      try congruence.
    rewrite lookup_insert. case_decide; congruence.
  - cbn. congruence.
  - destruct (collaborate_never_persists w token b db) as [-> _]. congruence.
Qed.

(** X12.  Every document in a collection the server can reach has a
    non-negative vote counter, a non-empty image URL, a diary text without
    surrounding white space, and no collaborators (only the collaboration
    route passes any, and it never stores). *)
Theorem stored_documents_well_formed (db : gmap ObjectId Art.doc) :
  reachable db ->
  forall id d,
    db !! id = Some d ->
    (0 <= Art.votes d)%Z
    /\ Art.imageUrl d <> ""
    /\ JsString.trim (Art.prompt d) = Art.prompt d
    /\ Art.collaborators d = [].
Proof.
  induction 1 as [| w r db _ IH]; intros id d' Hd.
  - rewrite lookup_empty in Hd. discriminate.
  - destruct (db !! id) as [d |] eqn:E.
    + destruct (IH id d E) as (Hv & Hu & Hp & Hc).
      destruct (handle_keeps w r db id d E) as [H | H];
        rewrite H in Hd; injection Hd as <-; cbn; repeat split; auto; lia.
    + destruct (handle_new_document w r db id d' E Hd) as (token & b & u & _ & Hc).
      apply create_fields in Hc as (url & _ & Hu & ->). cbn.
      repeat split; [lia | exact Hu |].
      destruct (b_prompt b); [apply trim_idempotent | reflexivity].
Qed.

Lemma stored_documents_well_formed_witness :
  reachable Examples.one_piece
  /\ Examples.one_piece !! 1%N = Some Examples.diary_piece
  /\ (0 <= Art.votes Examples.diary_piece)%Z
  /\ Art.imageUrl Examples.diary_piece <> ""
  /\ JsString.trim (Art.prompt Examples.diary_piece) = Art.prompt Examples.diary_piece
  /\ Art.collaborators Examples.diary_piece = [].
Proof.
  split; [exact one_piece_reachable |]. split; [exact one_piece_lookup |].
  exact (stored_documents_well_formed Examples.one_piece one_piece_reachable 1%N
           Examples.diary_piece one_piece_lookup).
Defined.

Lemma same_but_votes_refl (d : Art.doc) : Shape.same_but_votes d d.
Proof. repeat split. Qed.

Lemma same_but_votes_add_vote (d : Art.doc) : Shape.same_but_votes d (Art.add_vote d).
Proof. repeat split. Qed.

Lemma same_but_votes_trans (a b c : Art.doc) :
  Shape.same_but_votes a b -> Shape.same_but_votes b c -> Shape.same_but_votes a c.
Proof.
  unfold Shape.same_but_votes. intros H1 H2. intuition congruence.
Qed.

(** X13.  No list of requests removes a stored document or rewrites it:
    after the requests the document is still stored under its id, with the
    same owner, mood, image, diary text, style, colours, collaborators and
    creation time, and with at least as many votes. *)
Theorem documents_are_kept
    (rs : list (World * Request)) (db : gmap ObjectId Art.doc)
    (id : ObjectId) (d : Art.doc) :
  db !! id = Some d ->
  exists d', Shape.run rs db !! id = Some d'
             /\ Shape.same_but_votes d d'
             /\ (Art.votes d <= Art.votes d')%Z.
Proof.
  unfold Shape.run. revert db d.
  induction rs as [| [w r] rs IH]; intros db d Hd; cbn [foldl].
  - exists d. split; [exact Hd |]. split; [apply same_but_votes_refl | lia].
  - destruct (handle_keeps w r db id d Hd) as [H | H].
    + apply IH. exact H.
    + destruct (IH _ _ H) as (d' & H' & S' & V').
      exists d'. split; [exact H' |]. split.
      * eapply same_but_votes_trans; [apply same_but_votes_add_vote | exact S'].
      * cbn in V'. lia.
Qed.

Lemma documents_are_kept_witness :
  let rs := [(Examples.mock_world, PostVote None "000000000000000000000001");
             (Scenarios.real_world, PostArt (Some "t7") Scenarios.sad_rain);
             (Examples.mock_world, PostCollaborate None Examples.happy_and_sad)] in
  Examples.one_piece !! 1%N = Some Examples.diary_piece
  /\ exists d', Shape.run rs Examples.one_piece !! 1%N = Some d'
                /\ Shape.same_but_votes Examples.diary_piece d'
                /\ (Art.votes Examples.diary_piece <= Art.votes d')%Z.
Proof.
  intros rs. split; [exact one_piece_lookup |].
  exact (documents_are_kept rs Examples.one_piece 1%N Examples.diary_piece one_piece_lookup).
Defined.

(** X14.  A request changes the number of stored documents only by adding
    one, and only [POST /api/art] answered 201 does that; every other
    request, and every other answer, leaves the number as it was. *)
Theorem only_post_art_adds (w : World) (r : Request) (db : gmap ObjectId Art.doc) :
  size (handle w r db).1.1 = size db
  \/ (size (handle w r db).1.1 = S (size db)
      /\ status (handle w r db).2 = 201%Z
      /\ exists token b, r = PostArt token b).
Proof.
  destruct r as [token b | token | token vid | token m | token b]; cbn [handle].
  - destruct (post_art_cases w token b db) as [(H & _) | (u & d & _ & _ & Hn & Hs)].
    + left. now rewrite H.
    + right. rewrite Hs. cbn. split; [now apply map_size_insert_None |].
      split; [reflexivity | eauto].
  - left. reflexivity.
  - left.
    destruct (post_vote_cases w token vid db)
      as [(_ & ->) | [(oid & _ & _ & ->) | (oid & d & _ & Hd & ->)]]; cbn;
      try reflexivity.
    apply map_size_insert_Some. eauto.
  - left. reflexivity.
  - left. destruct (collaborate_never_persists w token b db) as [-> _]. reflexivity.
Qed.

Lemma votes_after_n_votes_witness :
  castObjectId Examples.mock_world "000000000000000000000001" = Some 1%N
  /\ Examples.one_piece !! 1%N = Some Examples.diary_piece
  /\ exists d',
      Nat.iter 3 (fun db => (post_vote Examples.mock_world None
                               "000000000000000000000001" db).1.1)
        Examples.one_piece !! 1%N = Some d'
      /\ Art.votes d' = (Art.votes Examples.diary_piece + Z.of_nat 3)%Z.
Proof.
  split; [reflexivity |]. split; [exact one_piece_lookup |].
  exact (votes_after_n_votes Examples.mock_world None "000000000000000000000001" 1%N 3
           Examples.one_piece Examples.diary_piece eq_refl one_piece_lookup).
Defined.

(** * The start-up code *)

Lemma warnings_only_warn (w : World) :
  List.existsb Server.is_listen (Server.warnings w) = false
  /\ List.existsb Server.is_exit (Server.warnings w) = false.
Proof.
  unfold Server.warnings.
  destruct (negb (present (ART_API_URL w)) || negb (present (ART_API_TOKEN w)));
    destruct (negb (present (cloud_name w)) || negb (present (api_key w))
              || negb (present (api_secret w))); split; reflexivity.
Qed.

Lemma warnings_credentials (w : World) :
  List.existsb Server.is_warn (Server.warnings w) = credentials_missing w.
Proof.
  unfold Server.warnings, credentials_missing.
  destruct (present (ART_API_URL w)), (present (ART_API_TOKEN w)),
    (present (cloud_name w)), (present (api_key w)), (present (api_secret w));
    reflexivity.
Qed.

(** X16.  The server reaches [app.listen] exactly when both [MONGO_URI] and
    [JWT_SECRET] are set (and not empty).  Otherwise it logs one error and
    exits with code 1 before it connects to the database or listens. *)
Theorem server_listens_iff_configured
    (env : Server.ProcessEnv) (w : World) (connected : bool) :
  (List.existsb Server.is_listen (Server.start env w connected) = true
   <-> present (Server.MONGO_URI env) = true /\ present (Server.JWT_SECRET env) = true)
  /\ (List.existsb Server.is_listen (Server.start env w connected) = false ->
      exists text, Server.start env w connected
                   = [Server.ConsoleError text; Server.ProcessExit 1]).
Proof.
  unfold Server.start.
  destruct (present (Server.MONGO_URI env)); cbn [negb];
    [| split; [split; [discriminate | intros [? ?]; discriminate] | eauto]].
  destruct (present (Server.JWT_SECRET env)); cbn [negb];
    [| split; [split; [discriminate | intros [? ?]; discriminate] | eauto]].
  assert (L : forall tl, List.existsb Server.is_listen
                (Server.warnings w
                 ++ [Server.MongooseConnect (template (Server.MONGO_URI env));
                     Server.AppListen (Server.port env)] ++ tl) = true).
  { intros tl. rewrite existsb_app. cbn. apply orb_true_r. }
  rewrite L. split; [split; auto | discriminate].
Qed.

(** X17.  A server that starts prints no warning exactly when
    [generateArtFromAPI] will use the real provider: each of the five
    settings whose absence sends generation to the mock table is covered by
    one of the two warnings, the three hosting credentials included. *)
Theorem silent_start_means_real_provider
    (env : Server.ProcessEnv) (w : World) (connected : bool) :
  present (Server.MONGO_URI env) = true ->
  present (Server.JWT_SECRET env) = true ->
  List.existsb Server.is_warn (Server.start env w connected) = credentials_missing w.
Proof.
  intros Hm Hj. unfold Server.start. rewrite Hm, Hj. cbn [negb].
  rewrite existsb_app, warnings_credentials.
  destruct connected; cbn; apply orb_false_r.
Qed.

Lemma silent_start_means_real_provider_witness :
  present (Server.MONGO_URI Scenarios.good_env) = true
  /\ present (Server.JWT_SECRET Scenarios.good_env) = true
  /\ List.existsb Server.is_warn (Server.start Scenarios.good_env Examples.mock_world true)
     = true
  /\ List.existsb Server.is_warn (Server.start Scenarios.good_env Scenarios.real_world true)
     = false.
Proof.
  split; [reflexivity |]. split; [reflexivity |]. split.
  - exact (silent_start_means_real_provider Scenarios.good_env Examples.mock_world true
             eq_refl eq_refl).
  - exact (silent_start_means_real_provider Scenarios.good_env Scenarios.real_world true
             eq_refl eq_refl).
Defined.

(** * The User schema and the auth routes *)

(** ** The email pattern *)

Lemma append_is_empty (a b : string) : a ++ b = "" -> a = "" /\ b = "".
Proof. destruct a; [auto | discriminate]. Qed.

Lemma on_one_line_cons (c : ascii) (s : string) :
  User.on_one_line (String c s) = User.dot c && User.on_one_line s.
Proof.
  unfold User.on_one_line. cbn [JsString.some_char].
  destruct (User.dot c); reflexivity.
Qed.

Lemma after_at_shape (r : string) (seen : bool) :
  User.after_at seen r = true
  <-> exists mid y post,
        r = mid ++ String "." (String y post)
        /\ User.on_one_line mid = true /\ User.dot y = true
        /\ (seen = true \/ mid <> "").
Proof.
  revert seen. induction r as [| c r IH]; intros seen.
  - split; [discriminate |].
    intros (mid & y & post & E & _). symmetry in E.
    apply append_is_empty in E as [_ E]. discriminate E.
  - cbn [User.after_at]. destruct (User.dot c) eqn:Hc.
    + destruct (seen && Ascii.eqb c "."
                && match r with String d _ => User.dot d | EmptyString => false end)
        eqn:Hnow.
      * split; [intros _ | reflexivity].
        apply andb_true_iff in Hnow as [Hnow Hd].
        apply andb_true_iff in Hnow as [Hs Hdot].
        apply Ascii.eqb_eq in Hdot. subst c.
        destruct r as [| d post]; [discriminate |].
        exists "", d, post. auto.
      * rewrite IH. split.
        -- intros (mid & y & post & -> & Hm & Hy & _).
           exists (String c mid), y, post.
           rewrite on_one_line_cons, Hc, Hm.
           repeat split; try (right; discriminate); auto.
        -- intros (mid & y & post & E & Hm & Hy & Hseen).
           destruct mid as [| c' mid].
           ++ exfalso. cbn in E. injection E as -> ->.
              destruct Hseen as [-> | Hne]; [| now apply Hne].
              cbn in Hnow. rewrite Hy in Hnow. discriminate.
           ++ rewrite append_cons in E. injection E as <- ->.
              rewrite on_one_line_cons in Hm. apply andb_true_iff in Hm as [_ Hm].
              exists mid, y, post. auto.
    + split; [discriminate |].
      intros (mid & y & post & E & Hm & _).
      exfalso. destruct mid as [| c' mid].
      * cbn in E. injection E as -> _. discriminate Hc.
      * rewrite append_cons in E. injection E as <- _.
        rewrite on_one_line_cons, Hc in Hm. discriminate.
Qed.

Lemma email_match_cons (c a : ascii) (r : string) :
  User.email_match (String c (String a r))
  = (User.dot c && Ascii.eqb a "@" && User.after_at false r)
    || User.email_match (String a r).
Proof. reflexivity. Qed.

Lemma email_match_shape (s : string) :
  User.email_match s = true <-> User.email_shape s.
Proof.
  unfold User.email_shape. induction s as [| c r IH].
  - split; [discriminate |].
    intros (pre & x & mid & y & post & E & _). symmetry in E.
    apply append_is_empty in E as [_ E]. discriminate E.
  - destruct r as [| a r].
    + split; [discriminate |].
      intros (pre & x & mid & y & post & E & _). exfalso.
      destruct pre as [| p pre]; [discriminate E |].
      rewrite append_cons in E. injection E as _ E. symmetry in E.
      apply append_is_empty in E as [_ E]. discriminate E.
    + rewrite email_match_cons, orb_true_iff, IH. split.
      * intros [H | (pre & x & mid & y & post & E & H)].
        -- apply andb_true_iff in H as [H Ha]. apply andb_true_iff in H as [Hc Hat].
           apply Ascii.eqb_eq in Hat. subst a.
           apply after_at_shape in Ha as (mid & y & post & -> & Hm & Hy & Hs).
           exists "", c, mid, y, post.
           repeat split; auto. destruct Hs as [Hs | Hs]; [discriminate | exact Hs].
        -- exists (String c pre), x, mid, y, post. rewrite append_cons, E. auto.
      * intros (pre & x & mid & y & post & E & Hx & Hne & Hm & Hy).
        destruct pre as [| p pre].
        -- left. cbn in E. injection E as -> -> ->.
           rewrite Hx, Ascii.eqb_refl. cbn [andb].
           apply after_at_shape. exists mid, y, post. auto.
        -- right. rewrite append_cons in E. injection E as _ E.
           exists pre, x, mid, y, post. auto.
Qed.

(** X18.  The pattern [/.+@.+\..+/] of the email path accepts exactly the
    strings that hold, somewhere: a character, ["@"], at least one
    character, ["."], and one more character, none of them a line break.
    So an accepted email always has something before such an ["@"] and a
    dot with something on both sides after it, and nothing else is asked of
    it: spaces, several ["@"] and text around the address all pass. *)
Theorem email_pattern_accepts (s : string) :
  (User.email_match s = true <-> User.email_shape s)
  /\ User.email_match "a@b.c" = true
  /\ User.email_match "see a@@b..c ok" = true
  /\ User.email_match "a@b." = false
  /\ User.email_match "a@.c" = false
  /\ User.email_match "@b.c" = false.
Proof.
  split; [apply email_match_shape |]. repeat split.
Qed.

(** ** The setters of the email path *)

Lemma lower_char_idempotent (c : ascii) :
  JsString.lower_char (JsString.lower_char c) = JsString.lower_char c.
Proof. destruct c as [[] [] [] [] [] [] [] []]; reflexivity. Qed.

Lemma lower_char_whitespace (c : ascii) :
  JsString.is_whitespace (JsString.lower_char c) = JsString.is_whitespace c.
Proof. destruct c as [[] [] [] [] [] [] [] []]; reflexivity. Qed.

Lemma toLowerCase_idempotent (s : string) :
  JsString.toLowerCase (JsString.toLowerCase s) = JsString.toLowerCase s.
Proof.
  induction s as [| c r IH]; [reflexivity |].
  cbn [JsString.toLowerCase]. now rewrite lower_char_idempotent, IH.
Qed.

Lemma trimStart_toLowerCase (s : string) :
  JsString.trimStart (JsString.toLowerCase s) = JsString.toLowerCase (JsString.trimStart s).
Proof.
  induction s as [| c r IH]; [reflexivity |].
  cbn [JsString.toLowerCase JsString.trimStart]. rewrite lower_char_whitespace.
  destruct (JsString.is_whitespace c); [exact IH | reflexivity].
Qed.

Lemma trimEnd_toLowerCase (s : string) :
  JsString.trimEnd (JsString.toLowerCase s) = JsString.toLowerCase (JsString.trimEnd s).
Proof.
  induction s as [| c r IH]; [reflexivity |].
  cbn [JsString.toLowerCase JsString.trimEnd]. rewrite IH, lower_char_whitespace.
  destruct (JsString.trimEnd r) as [| e t]; cbn [JsString.toLowerCase].
  - destruct (JsString.is_whitespace c); reflexivity.
  - reflexivity.
Qed.

(** [trim] and [lowercase] commute, so the order in which the document layer
    runs the two setters does not matter. *)
Lemma trim_toLowerCase (s : string) :
  JsString.trim (JsString.toLowerCase s) = JsString.toLowerCase (JsString.trim s).
Proof.
  unfold JsString.trim. now rewrite trimStart_toLowerCase, trimEnd_toLowerCase.
Qed.

Lemma normalize_idempotent (e : string) : User.normalize (User.normalize e) = User.normalize e.
Proof.
  unfold User.normalize.
  now rewrite <- trim_toLowerCase, toLowerCase_idempotent, trim_idempotent.
Qed.

(** ** Looking a user up *)

Lemma with_email_Some (e : string) (users : gmap ObjectId User.doc)
    (id : ObjectId) (d : User.doc) :
  User.with_email e users = Some (id, d) -> users !! id = Some d /\ User.email d = e.
Proof.
  unfold User.with_email. intros H. apply find_some in H as [Hin He].
  apply list_elem_of_In, elem_of_map_to_list in Hin.
  cbn in He. apply String.eqb_eq in He. auto.
Qed.

Lemma with_email_None (e : string) (users : gmap ObjectId User.doc) :
  User.with_email e users = None <-> forall id d, users !! id = Some d -> User.email d <> e.
Proof.
  unfold User.with_email. split.
  - intros H id d Hd He.
    pose proof (find_none _ _ H (id, d)) as N. cbn in N.
    rewrite <- list_elem_of_In, elem_of_map_to_list in N.
    specialize (N Hd). apply String.eqb_neq in N. contradiction.
  - intros H.
    destruct (List.find _ (map_to_list users)) as [[id d] |] eqn:F; [| reflexivity].
    apply find_some in F as [Hin He].
    apply list_elem_of_In, elem_of_map_to_list in Hin.
    cbn in He. apply String.eqb_eq in He. exfalso. exact (H id d Hin He).
Qed.

Lemma with_email_found (e : string) (users : gmap ObjectId User.doc)
    (id : ObjectId) (d : User.doc) :
  users !! id = Some d -> User.email d = e ->
  exists id' d', User.with_email e users = Some (id', d').
Proof.
  intros Hd He.
  destruct (User.with_email e users) as [[id' d'] |] eqn:F; [eauto |].
  exfalso. exact (proj1 (with_email_None e users) F id d Hd He).
Qed.

(** ** Creating a user *)

Lemma user_create_Return (now : Z) (i : User.init) (d : User.doc) :
  User.create now i = Return d
  <-> exists e, User.init_email i = Some e
                /\ User.email_match (User.normalize e) = true
                /\ (6 <= String.length (User.init_password i))%nat
                /\ d = {| User.email := User.normalize e;
                          User.password := User.init_password i;
                          User.avatar := User.init_avatar i;
                          User.createdAt := now |}.
Proof.
  unfold User.create, User.validate_email, User.validate_password.
  destruct (User.init_email i) as [e |]; cbn [fmap option_fmap option_map app];
    [| split; [discriminate | intros (e & [=] & _)]].
  destruct (String.eqb_spec (User.normalize e) "") as [E | E].
  { split; [discriminate |]. intros (e' & [= <-] & M & _).
    rewrite E in M. discriminate M. }
  destruct (User.email_match (User.normalize e)) eqn:M; cbn [app];
    [| split; [discriminate | intros (e' & [= <-] & M' & _); congruence]].
  destruct (String.eqb_spec (User.init_password i) "") as [P | P].
  { split; [discriminate |]. intros (e' & _ & _ & L & _).
    rewrite P in L. cbn in L. lia. }
  destruct (Nat.ltb_spec (String.length (User.init_password i)) 6) as [L | L].
  { split; [discriminate |]. intros (e' & _ & _ & L' & _). lia. }
  split.
  - intros [= <-]. exists e. auto.
  - intros (e' & [= <-] & _ & _ & ->). reflexivity.
Qed.

(** The one way [signup] answers 201, with what it then stores and sends. *)
Lemma signup_201 (w : AuthRoutes.AuthWorld) (b : AuthRoutes.SignupBody)
    (users : gmap ObjectId User.doc) :
  AuthRoutes.status (AuthRoutes.signup w b users).2 = 201%Z
  <-> exists e pw,
        AuthRoutes.s_email b = Some e
        /\ AuthRoutes.s_password b = Some pw
        /\ User.email_match (User.normalize e) = true
        /\ (forall id d, users !! id = Some d -> User.email d <> User.normalize e)
        /\ (6 <= String.length (AuthRoutes.bcrypt_hash w pw))%nat
        /\ users !! AuthRoutes.new_user_id w = None
        /\ AuthRoutes.signup w b users
           = (<[AuthRoutes.new_user_id w :=
                  {| User.email := User.normalize e;
                     User.password := AuthRoutes.bcrypt_hash w pw;
                     User.avatar := AuthRoutes.avatar_of (AuthRoutes.s_mood b);
                     User.createdAt := AuthRoutes.user_now w |}]> users,
              AuthRoutes.mkResponse 201
                (AuthRoutes.Session
                   (AuthRoutes.jwt_sign w (AuthRoutes.new_user_id w))
                   (AuthRoutes.avatar_of (AuthRoutes.s_mood b))
                   (AuthRoutes.new_user_id w)
                   "User registered successfully!")).
Proof.
  split.
  - unfold AuthRoutes.signup.
    destruct (AuthRoutes.s_email b) as [e |] eqn:Ee.
    + cbn [User.findOne].
      destruct (User.with_email (User.normalize e) users) as [[id0 d0] |] eqn:F;
        [cbn; discriminate |].
      destruct (AuthRoutes.s_password b) as [pw |]; [| cbn; discriminate].
      unfold User.save_new.
      destruct (User.create _ _) as [d | err] eqn:C;
        [| destruct err; cbn; discriminate].
      apply user_create_Return in C as (e' & [= <-] & M & L & ->).
      cbn [User.email]. rewrite F.
      destruct (users !! AuthRoutes.new_user_id w) eqn:N; [cbn; discriminate |].
      intros _. exists e, pw.
      repeat split; auto. now apply with_email_None.
    + cbn [User.findOne].
      destruct (AuthRoutes.s_password b) as [pw |]; [| cbn; discriminate].
      unfold User.save_new.
      destruct (User.create _ _) as [d | err] eqn:C;
        [| destruct err; cbn; discriminate].
      apply user_create_Return in C as (e' & [=] & _).
  - intros (e & pw & _ & _ & _ & _ & _ & _ & ->). reflexivity.
Qed.

Lemma signup_accepts (w : AuthRoutes.AuthWorld) (b : AuthRoutes.SignupBody)
    (users : gmap ObjectId User.doc) (e pw : string) :
  AuthRoutes.s_email b = Some e ->
  AuthRoutes.s_password b = Some pw ->
  User.email_match (User.normalize e) = true ->
  (forall id d, users !! id = Some d -> User.email d <> User.normalize e) ->
  (6 <= String.length (AuthRoutes.bcrypt_hash w pw))%nat ->
  users !! AuthRoutes.new_user_id w = None ->
  AuthRoutes.signup w b users
  = (<[AuthRoutes.new_user_id w :=
         {| User.email := User.normalize e;
            User.password := AuthRoutes.bcrypt_hash w pw;
            User.avatar := AuthRoutes.avatar_of (AuthRoutes.s_mood b);
            User.createdAt := AuthRoutes.user_now w |}]> users,
     AuthRoutes.mkResponse 201
       (AuthRoutes.Session
          (AuthRoutes.jwt_sign w (AuthRoutes.new_user_id w))
          (AuthRoutes.avatar_of (AuthRoutes.s_mood b))
          (AuthRoutes.new_user_id w)
          "User registered successfully!")).
Proof.
  intros Ee Ep M U L N.
  assert (F : User.with_email (User.normalize e) users = None)
    by now apply with_email_None.
  unfold AuthRoutes.signup. rewrite Ee, Ep. cbn [User.findOne]. rewrite F.
  unfold User.save_new.
  match goal with
  | |- context [User.create ?n ?i] =>
      assert (C : User.create n i
                  = Return {| User.email := User.normalize e;
                              User.password := AuthRoutes.bcrypt_hash w pw;
                              User.avatar := AuthRoutes.avatar_of (AuthRoutes.s_mood b);
                              User.createdAt := AuthRoutes.user_now w |})
  end.
  { apply user_create_Return. exists e. auto. }
  rewrite C. cbn [User.email]. rewrite F, N. reflexivity.
Qed.

(** ** Signing up *)

(** X19.  Signup compares emails after trimming and lower-casing: when a
    stored user has the email the request's email normalizes to, the answer
    is 400 "already exists" and nothing is stored, whatever the spelling,
    the password and the mood of the request. *)
Theorem signup_refuses_known_email
    (w : AuthRoutes.AuthWorld) (b : AuthRoutes.SignupBody)
    (users : gmap ObjectId User.doc) (e : string) (id : ObjectId) (d : User.doc) :
  AuthRoutes.s_email b = Some e ->
  users !! id = Some d ->
  User.email d = User.normalize e ->
  AuthRoutes.signup w b users
  = (users, AuthRoutes.mkResponse 400 (AuthRoutes.Json AuthRoutes.msg_exists)).
Proof.
  intros Ee Hd He. unfold AuthRoutes.signup. rewrite Ee. cbn [User.findOne].
  destruct (with_email_found _ users id d Hd He) as (id' & d' & ->). reflexivity.
Qed.

Lemma one_user_lookup :
  Scenarios.one_user !! 7%N
  = Some {| User.email := "ada@example.com"; User.password := "$2a$10$secret1";
            User.avatar := "happy_emoji"; User.createdAt := 1700000000000 |}.
Proof. vm_compute. reflexivity. Qed.

Lemma signup_refuses_known_email_witness :
  let b := AuthRoutes.mkSignupBody (Some "ADA@Example.com  ") (Some "other-pw") None in
  Scenarios.one_user !! 7%N
  = Some {| User.email := "ada@example.com"; User.password := "$2a$10$secret1";
            User.avatar := "happy_emoji"; User.createdAt := 1700000000000 |}
  /\ "ada@example.com" = User.normalize "ADA@Example.com  "
  /\ AuthRoutes.signup Scenarios.auth_world b Scenarios.one_user
     = (Scenarios.one_user,
        AuthRoutes.mkResponse 400 (AuthRoutes.Json AuthRoutes.msg_exists)).
Proof.
  intros b. split; [exact one_user_lookup |]. split; [reflexivity |].
  exact (signup_refuses_known_email Scenarios.auth_world b Scenarios.one_user
           "ADA@Example.com  " 7%N _ eq_refl one_user_lookup eq_refl).
Defined.

Lemma avatar_of_cases (mood : option string) :
  AuthRoutes.avatar_of mood
  = match mood with
    | Some (String c m) => JsString.toLowerCase (String c m) ++ "_emoji"
    | _ => "default_avatar"
    end.
Proof.
  destruct mood as [[| c m] |]; try reflexivity.
  unfold AuthRoutes.avatar_of, template, plus. cbn [present String.eqb negb].
  now rewrite append_empty_r.
Qed.

(** X20.  When signup answers 201 it has stored exactly one new user, under
    the new id: the email trimmed and lower-cased, the password as
    [bcrypt.hash] returned it (the request's password itself is not
    stored), the avatar ["<mood in lower case>_emoji"] or
    ["default_avatar"], and the current time.  The answer carries the token
    signed for the new id, the avatar and the id. *)
Theorem signup_stores_the_new_user
    (w : AuthRoutes.AuthWorld) (b : AuthRoutes.SignupBody)
    (users : gmap ObjectId User.doc) :
  AuthRoutes.status (AuthRoutes.signup w b users).2 = 201%Z ->
  exists e pw,
    AuthRoutes.s_email b = Some e
    /\ AuthRoutes.s_password b = Some pw
    /\ users !! AuthRoutes.new_user_id w = None
    /\ AuthRoutes.signup w b users
       = (<[AuthRoutes.new_user_id w :=
              {| User.email := JsString.trim (JsString.toLowerCase e);
                 User.password := AuthRoutes.bcrypt_hash w pw;
                 User.avatar :=
                   match AuthRoutes.s_mood b with
                   | Some (String c m) => JsString.toLowerCase (String c m) ++ "_emoji"
                   | _ => "default_avatar"
                   end;
                 User.createdAt := AuthRoutes.user_now w |}]> users,
          AuthRoutes.mkResponse 201
            (AuthRoutes.Session
               (AuthRoutes.jwt_sign w (AuthRoutes.new_user_id w))
               (match AuthRoutes.s_mood b with
                | Some (String c m) => JsString.toLowerCase (String c m) ++ "_emoji"
                | _ => "default_avatar"
                end)
               (AuthRoutes.new_user_id w)
               "User registered successfully!")).
Proof.
  intros H. apply signup_201 in H as (e & pw & Ee & Ep & _ & _ & _ & N & E).
  exists e, pw. repeat split; try assumption.
  rewrite E, avatar_of_cases. reflexivity.
Qed.

Lemma signup_stores_the_new_user_witness :
  AuthRoutes.status (AuthRoutes.signup Scenarios.auth_world Scenarios.ada_signup ∅).2 = 201%Z
  /\ (AuthRoutes.signup Scenarios.auth_world Scenarios.ada_signup ∅).1 !! 7%N
     = Some {| User.email := "ada@example.com"; User.password := "$2a$10$secret1";
               User.avatar := "happy_emoji"; User.createdAt := 1700000000000 |}.
Proof.
  assert (H : AuthRoutes.status
                (AuthRoutes.signup Scenarios.auth_world Scenarios.ada_signup ∅).2 = 201%Z)
    by reflexivity.
  split; [exact H |].
  destruct (signup_stores_the_new_user Scenarios.auth_world Scenarios.ada_signup ∅ H)
    as (e & pw & Ee & Ep & _ & E).
  rewrite E. cbn [fst]. rewrite lookup_insert_eq.
  injection Ee as <-. injection Ep as <-. reflexivity.
Defined.

(** X21.  Signup answers 201 exactly when the request has an email and a
    password, the normalized email matches the pattern and belongs to no
    stored user, the hash is at least 6 characters long, and the new id is
    free.  The length test of the schema is applied to the hash, not to the
    password: the password itself may have any length, zero included. *)
Theorem signup_succeeds_exactly_when
    (w : AuthRoutes.AuthWorld) (b : AuthRoutes.SignupBody)
    (users : gmap ObjectId User.doc) :
  AuthRoutes.status (AuthRoutes.signup w b users).2 = 201%Z
  <-> exists e pw,
        AuthRoutes.s_email b = Some e
        /\ AuthRoutes.s_password b = Some pw
        /\ User.email_match (User.normalize e) = true
        /\ (forall id d, users !! id = Some d -> User.email d <> User.normalize e)
        /\ (6 <= String.length (AuthRoutes.bcrypt_hash w pw))%nat
        /\ users !! AuthRoutes.new_user_id w = None.
Proof.
  split.
  - intros H. apply signup_201 in H as (e & pw & Ee & Ep & M & U & L & N & _).
    exists e, pw. repeat split; assumption.
  - intros (e & pw & Ee & Ep & M & U & L & N).
    now rewrite (signup_accepts w b users e pw Ee Ep M U L N).
Qed.

Lemma signup_succeeds_exactly_when_witness :
  let b := AuthRoutes.mkSignupBody (Some "bob@example.org") (Some "") None in
  (exists e pw,
      AuthRoutes.s_email b = Some e
      /\ AuthRoutes.s_password b = Some pw
      /\ User.email_match (User.normalize e) = true
      /\ (forall id d, (∅ : gmap ObjectId User.doc) !! id = Some d ->
                       User.email d <> User.normalize e)
      /\ (6 <= String.length (AuthRoutes.bcrypt_hash Scenarios.auth_world pw))%nat
      /\ (∅ : gmap ObjectId User.doc) !! AuthRoutes.new_user_id Scenarios.auth_world = None)
  /\ AuthRoutes.status (AuthRoutes.signup Scenarios.auth_world b ∅).2 = 201%Z.
Proof.
  intros b.
  assert (H : exists e pw,
      AuthRoutes.s_email b = Some e
      /\ AuthRoutes.s_password b = Some pw
      /\ User.email_match (User.normalize e) = true
      /\ (forall id d, (∅ : gmap ObjectId User.doc) !! id = Some d ->
                       User.email d <> User.normalize e)
      /\ (6 <= String.length (AuthRoutes.bcrypt_hash Scenarios.auth_world pw))%nat
      /\ (∅ : gmap ObjectId User.doc) !! AuthRoutes.new_user_id Scenarios.auth_world = None).
  { exists "bob@example.org", "".
    split; [reflexivity |]. split; [reflexivity |]. split; [reflexivity |].
    split; [intros id d Hd; rewrite lookup_empty in Hd; discriminate Hd |].
    split; [vm_compute; lia | apply lookup_empty]. }
  split; [exact H |].
  exact (proj2 (signup_succeeds_exactly_when Scenarios.auth_world b ∅) H).
Defined.

(** ** The user collection *)

Lemma auth_handle_cases (w : AuthRoutes.AuthWorld) (r : AuthRoutes.Request)
    (users : gmap ObjectId User.doc) :
  (AuthRoutes.handle w r users).1 = users
  \/ exists e pw b,
       r = AuthRoutes.Signup b
       /\ AuthRoutes.s_email b = Some e
       /\ User.email_match (User.normalize e) = true
       /\ (forall id d, users !! id = Some d -> User.email d <> User.normalize e)
       /\ (6 <= String.length (AuthRoutes.bcrypt_hash w pw))%nat
       /\ users !! AuthRoutes.new_user_id w = None
       /\ (AuthRoutes.handle w r users).1
          = <[AuthRoutes.new_user_id w :=
                {| User.email := User.normalize e;
                   User.password := AuthRoutes.bcrypt_hash w pw;
                   User.avatar := AuthRoutes.avatar_of (AuthRoutes.s_mood b);
                   User.createdAt := AuthRoutes.user_now w |}]> users.
Proof.
  destruct r as [b | b]; cbn [AuthRoutes.handle].
  - destruct (decide (AuthRoutes.status (AuthRoutes.signup w b users).2 = 201%Z))
      as [H | H].
    + right. apply signup_201 in H as (e & pw & Ee & Ep & M & U & L & N & E).
      exists e, pw, b. rewrite E. repeat split; assumption.
    + left. unfold AuthRoutes.signup in *.
      destruct (User.findOne (AuthRoutes.s_email b) users) as [[id0 d0] |];
        [reflexivity |].
      destruct (AuthRoutes.s_password b) as [pw |]; [| reflexivity].
      unfold User.save_new in *.
      destruct (User.create _ _) as [d | err]; [| reflexivity].
      destruct (User.with_email (User.email d) users) as [[id1 d1] |];
        [reflexivity |].
      destruct (users !! AuthRoutes.new_user_id w); [reflexivity |].
      exfalso. apply H. reflexivity.
  - left. unfold AuthRoutes.login.
    destruct (User.findOne (AuthRoutes.l_email b) users) as [[id u] |]; [| reflexivity].
    destruct (AuthRoutes.l_password b) as [pw |]; [| reflexivity].
    destruct (AuthRoutes.bcrypt_compare w pw (User.password u)); reflexivity.
Qed.

(** X22.  In every user collection the two routes can reach, no two users
    share an email, and every stored email is in normal form (trimming and
    lower-casing it again changes nothing) and matches the email pattern;
    every stored password is at least 6 characters long. *)
Theorem stored_users_well_formed (users : gmap ObjectId User.doc) :
  AuthRoutes.reachable users ->
  (forall id d,
      users !! id = Some d ->
      User.normalize (User.email d) = User.email d
      /\ User.email_shape (User.email d)
      /\ (6 <= String.length (User.password d))%nat)
  /\ (forall id1 id2 d1 d2,
        users !! id1 = Some d1 -> users !! id2 = Some d2 ->
        User.email d1 = User.email d2 -> id1 = id2).
Proof.
  induction 1 as [| w r users _ [IH1 IH2]].
  - split; intros; rewrite lookup_empty in *; discriminate.
  - destruct (auth_handle_cases w r users)
      as [-> | (e & pw & b & _ & _ & M & U & L & N & ->)]; [auto |].
    split.
    + intros id d. rewrite lookup_insert. case_decide as K; [| apply IH1].
      intros [= <-]. cbn.
      split; [apply normalize_idempotent |].
      split; [now apply email_match_shape | exact L].
    + intros id1 id2 d1 d2. rewrite !lookup_insert.
      repeat case_decide; subst.
      * reflexivity.
      * intros [= <-] H2 E. cbn in E. exfalso. exact (U id2 d2 H2 (eq_sym E)).
      * intros H1 [= <-] E. cbn in E. exfalso. exact (U id1 d1 H1 E).
      * apply IH2.
Qed.

Lemma one_user_reachable : AuthRoutes.reachable Scenarios.one_user.
Proof.
  exact (AuthRoutes.reachable_handle Scenarios.auth_world
           (AuthRoutes.Signup Scenarios.ada_signup) ∅ AuthRoutes.reachable_empty).
Qed.

Lemma stored_users_well_formed_witness :
  AuthRoutes.reachable Scenarios.one_user
  /\ forall id d,
      Scenarios.one_user !! id = Some d ->
      User.normalize (User.email d) = User.email d
      /\ User.email_shape (User.email d)
      /\ (6 <= String.length (User.password d))%nat.
Proof.
  split; [exact one_user_reachable |].
  exact (proj1 (stored_users_well_formed Scenarios.one_user one_user_reachable)).
Defined.

(** X23.  Neither route changes or removes a stored user: whatever the
    request, every user that was stored is stored afterwards, under the
    same id and with the same email, password hash, avatar and creation
    time.  Login stores nothing at all. *)
Theorem stored_users_are_kept
    (w : AuthRoutes.AuthWorld) (r : AuthRoutes.Request)
    (users : gmap ObjectId User.doc) (id : ObjectId) (d : User.doc) :
  users !! id = Some d ->
  (AuthRoutes.handle w r users).1 !! id = Some d
  /\ (forall b, r = AuthRoutes.Login b -> (AuthRoutes.handle w r users).1 = users).
Proof.
  intros Hd. split.
  - destruct (auth_handle_cases w r users)
      as [-> | (e & pw & b & _ & _ & _ & _ & _ & N & ->)]; [exact Hd |].
    rewrite lookup_insert_ne; [exact Hd | congruence].
  - intros b ->.
    destruct (auth_handle_cases w (AuthRoutes.Login b) users)
      as [H | (e & pw & b' & [=] & _)]; exact H.
Qed.

Lemma stored_users_are_kept_witness :
  Scenarios.one_user !! 7%N
  = Some {| User.email := "ada@example.com"; User.password := "$2a$10$secret1";
            User.avatar := "happy_emoji"; User.createdAt := 1700000000000 |}
  /\ (AuthRoutes.handle Scenarios.auth_world (AuthRoutes.Signup Scenarios.ada_signup)
        Scenarios.one_user).1 !! 7%N
     = Some {| User.email := "ada@example.com"; User.password := "$2a$10$secret1";
               User.avatar := "happy_emoji"; User.createdAt := 1700000000000 |}.
Proof.
  split; [exact one_user_lookup |].
  exact (proj1 (stored_users_are_kept Scenarios.auth_world
                  (AuthRoutes.Signup Scenarios.ada_signup) Scenarios.one_user 7%N _
                  one_user_lookup)).
Defined.

(** ** Logging in *)

(** X24.  Login does not tell an unknown email from a wrong password: in
    both cases the answer is the same 400 with the same message, and
    nothing is stored. *)
Theorem login_failures_look_alike
    (w : AuthRoutes.AuthWorld) (b : AuthRoutes.LoginBody)
    (users : gmap ObjectId User.doc) :
  User.findOne (AuthRoutes.l_email b) users = None
  \/ (exists id user pw,
        User.findOne (AuthRoutes.l_email b) users = Some (id, user)
        /\ AuthRoutes.l_password b = Some pw
        /\ AuthRoutes.bcrypt_compare w pw (User.password user) = false) ->
  AuthRoutes.login w b users
  = (users, AuthRoutes.mkResponse 400 (AuthRoutes.Json AuthRoutes.msg_invalid_credentials)).
Proof.
  unfold AuthRoutes.login. intros [-> | (id & user & pw & -> & -> & ->)]; reflexivity.
Qed.

Lemma login_failures_look_alike_witness :
  User.findOne (Some "eve@example.com") Scenarios.one_user = None
  /\ AuthRoutes.login Scenarios.auth_world
       (AuthRoutes.mkLoginBody (Some "eve@example.com") (Some "secret1")) Scenarios.one_user
     = AuthRoutes.login Scenarios.auth_world
         (AuthRoutes.mkLoginBody (Some "ada@example.com") (Some "wrong")) Scenarios.one_user.
Proof.
  assert (H1 : User.findOne (Some "eve@example.com") Scenarios.one_user = None)
    by (vm_compute; reflexivity).
  split; [exact H1 |].
  rewrite (login_failures_look_alike Scenarios.auth_world
             (AuthRoutes.mkLoginBody (Some "eve@example.com") (Some "secret1"))
             Scenarios.one_user (or_introl H1)).
  symmetry.
  apply (login_failures_look_alike Scenarios.auth_world
           (AuthRoutes.mkLoginBody (Some "ada@example.com") (Some "wrong"))
           Scenarios.one_user).
  right. exists 7%N, {| User.email := "ada@example.com"; User.password := "$2a$10$secret1";
                       User.avatar := "happy_emoji"; User.createdAt := 1700000000000 |},
           "wrong".
  split; [vm_compute; reflexivity |]. split; reflexivity.
Defined.

(** X25.  A user who has just signed up can log in: with the same password,
    and the email in any spelling that normalizes to the same string, login
    finds the new user and, provided [bcrypt.compare] accepts the password
    against the hash [bcrypt.hash] produced, answers 200 with a token for
    the id signup gave, and the avatar signup stored. *)
Theorem signup_then_login
    (w1 w2 : AuthRoutes.AuthWorld) (b : AuthRoutes.SignupBody)
    (users : gmap ObjectId User.doc) (e pw e' : string) :
  AuthRoutes.status (AuthRoutes.signup w1 b users).2 = 201%Z ->
  AuthRoutes.s_email b = Some e ->
  AuthRoutes.s_password b = Some pw ->
  User.normalize e' = User.normalize e ->
  AuthRoutes.bcrypt_compare w2 pw (AuthRoutes.bcrypt_hash w1 pw) = true ->
  AuthRoutes.login w2 (AuthRoutes.mkLoginBody (Some e') (Some pw))
    (AuthRoutes.signup w1 b users).1
  = ((AuthRoutes.signup w1 b users).1,
     AuthRoutes.mkResponse 200
       (AuthRoutes.Session
          (AuthRoutes.jwt_sign w2 (AuthRoutes.new_user_id w1))
          (AuthRoutes.avatar_of (AuthRoutes.s_mood b))
          (AuthRoutes.new_user_id w1)
          "Logged in successfully!")).
Proof.
  intros H Ee Ep Hn Hc.
  apply signup_201 in H as (e0 & pw0 & Ee0 & Ep0 & _ & U & _ & N & E).
  rewrite Ee in Ee0. injection Ee0 as <-. rewrite Ep in Ep0. injection Ep0 as <-.
  rewrite E. cbn [fst].
  set (d := {| User.email := User.normalize e;
               User.password := AuthRoutes.bcrypt_hash w1 pw;
               User.avatar := AuthRoutes.avatar_of (AuthRoutes.s_mood b);
               User.createdAt := AuthRoutes.user_now w1 |}).
  set (users' := <[AuthRoutes.new_user_id w1 := d]> users).
  assert (F : User.with_email (User.normalize e) users'
              = Some (AuthRoutes.new_user_id w1, d)).
  { destruct (with_email_found (User.normalize e) users' (AuthRoutes.new_user_id w1) d)
      as (id' & d' & F); [apply lookup_insert_eq | reflexivity |].
    rewrite F. apply with_email_Some in F as [L He].
    unfold users' in L. rewrite lookup_insert in L. case_decide as K.
    - injection L as <-. now subst id'.
    - exfalso. exact (U id' d' L He). }
  unfold AuthRoutes.login. cbn [AuthRoutes.l_email AuthRoutes.l_password User.findOne].
  rewrite Hn, F. cbn [User.password User.avatar d]. now rewrite Hc.
Qed.

Lemma signup_then_login_witness :
  AuthRoutes.status (AuthRoutes.signup Scenarios.auth_world Scenarios.ada_signup ∅).2 = 201%Z
  /\ User.normalize "ada@example.com" = User.normalize "  Ada@Example.COM "
  /\ AuthRoutes.bcrypt_compare Scenarios.auth_world "secret1"
       (AuthRoutes.bcrypt_hash Scenarios.auth_world "secret1") = true
  /\ AuthRoutes.login Scenarios.auth_world Scenarios.ada_login Scenarios.one_user
     = (Scenarios.one_user,
        AuthRoutes.mkResponse 200
          (AuthRoutes.Session "t7" "happy_emoji" 7%N "Logged in successfully!")).
Proof.
  assert (H1 : AuthRoutes.status
                 (AuthRoutes.signup Scenarios.auth_world Scenarios.ada_signup ∅).2 = 201%Z)
    by reflexivity.
  assert (H4 : User.normalize "ada@example.com" = User.normalize "  Ada@Example.COM ")
    by reflexivity.
  assert (H5 : AuthRoutes.bcrypt_compare Scenarios.auth_world "secret1"
                 (AuthRoutes.bcrypt_hash Scenarios.auth_world "secret1") = true)
    by reflexivity.
  split; [exact H1 |]. split; [exact H4 |]. split; [exact H5 |].
  exact (signup_then_login Scenarios.auth_world Scenarios.auth_world Scenarios.ada_signup ∅
           "  Ada@Example.COM " "secret1" "ada@example.com" H1 eq_refl eq_refl H4 H5).
Defined.

(** * Creating and listing together *)

(** X26.  A document that [POST /api/art] has just stored appears in the
    history of exactly its owner: a later history request lists it if and
    only if the first request had a user and the later request has the same
    one.  A document created without a user is in nobody's history. *)
Theorem created_art_is_in_its_owners_history
    (w : World) (token : option string) (b : ArtBody) (db : gmap ObjectId Art.doc) :
  status (post_art w token b db).2 = 201%Z ->
  exists d,
    (post_art w token b db).1.1 !! new_ObjectId w = Some d
    /\ Art.userId d = optionalAuth w token
    /\ forall w' token' l,
        json (get_history w' token' (post_art w token b db).1.1).2 = ArtList l ->
        ((new_ObjectId w, d) ∈ l
         <-> is_Some (optionalAuth w token)
             /\ optionalAuth w' token' = optionalAuth w token).
Proof.
  intros Hs.
  destruct (post_art_cases w token b db) as [(_ & H & _) | (u & d & _ & Hc & _ & Hp)];
    [contradiction |].
  apply create_Return in Hc as (_ & _ & _ & Hu & _). cbn in Hu.
  exists d. rewrite Hp. cbn [fst snd].
  split; [apply lookup_insert_eq |]. split; [exact Hu |].
  intros w' token' l. unfold get_history.
  destruct (optionalAuth w' token') as [u' |] eqn:O'; cbn [json snd].
  - intros [= <-].
    destruct (find_sorted_spec true (same_user (Some u'))
                (<[new_ObjectId w := d]> db)) as (M & _ & _).
    rewrite M, lookup_insert_eq. unfold same_user. cbn [snd].
    rewrite bool_decide_eq_true, Hu.
    split.
    + intros [_ E]. rewrite E. split; [eauto | reflexivity].
    + intros [_ E]. split; [reflexivity | now rewrite E].
  - intros [= <-]. split; [intros H; inversion H |].
    intros [[x Hx] E]. rewrite Hx in E. discriminate E.
Qed.

Lemma created_art_is_in_its_owners_history_witness :
  status (post_art Scenarios.real_world (Some "t7") Scenarios.sad_rain Examples.one_piece).2
  = 201%Z
  /\ exists d,
      (post_art Scenarios.real_world (Some "t7") Scenarios.sad_rain Examples.one_piece).1.1
        !! 2%N = Some d
      /\ Art.userId d = Some 7%N.
Proof.
  assert (H : status (post_art Scenarios.real_world (Some "t7") Scenarios.sad_rain
                        Examples.one_piece).2 = 201%Z) by reflexivity.
  split; [exact H |].
  destruct (created_art_is_in_its_owners_history Scenarios.real_world (Some "t7")
              Scenarios.sad_rain Examples.one_piece H) as (d & Hd & Hu & _).
  exists d. split; [exact Hd | exact Hu].
Defined.
